(** * popcorn-cli: the interactive submission flow of [main.py]

    A shallow embedding of [src/main.py] and of the library calls it makes
    (rich's [IntPrompt], [os.path], text-mode [open], [json.dumps] and
    [json.loads]), followed by the properties of the flow.

    Conventions of the embedding.
    - A Python [str] is a list of code points ([N]); a file is a list of bytes.
    - A value returned by [response.json()] is a [json]; binary64 numbers are
      outside the embedding.
    - The program runs against a [World] (file system and HTTP server) and a
      list of lines typed by the user; a run yields an outcome (normal
      return, a raised [Exception], or [SystemExit]), the lines left, and the
      trace of observable events.
    - [console.print] appends its text, markup included, to the trace.
    - [str.lower], which follows the Unicode case mappings, and [str(v)] for
      a value that is no [str] are parameters of the flow.
    - Text files are read as UTF-8 and paths are POSIX paths.
    - The limits of the interpreter (recursion depth, digits of an [int])
      and interruptions from outside ([KeyboardInterrupt]) are left out.

    Plan.  The modules [Str], [Text], [IntPrompt] and [Json] and the section
    [Main] are the embedding.  Then come the runs of the flow ([selects],
    [body_cases]), the properties C1 to C10 of the specification, each next
    to the lemmas it rests on, and the scenario of the specification
    ([Example]) on which the properties are exercised.  The last part
    holds further properties of the code, X1 to X16: the order of the
    requests and what a run says of the submission, proved of every run
    with a logic of traces ([walks]); how a run ends; menus without a
    choice and answers of the wrong shape; the file part of the POST and
    the printed result; and the runs that exercise them ([OtherRuns]). *)

From Stdlib Require Import String Ascii List ZArith NArith Lia Bool.
From Stdlib.Strings Require Import Byte.
From Stdlib Require Import DecimalN DecimalZ DecimalFacts.
Import ListNotations.

Set Implicit Arguments.
Set Warnings "-register-all".

(* ================================================================== *)
(** * Strings *)

Module Str.

Definition str := list N.

(** The code points of an ASCII literal. *)
Definition u (s : string) : str := map N_of_ascii (list_ascii_of_string s).

Fixpoint eqb (a b : str) : bool :=
  match a, b with
  | [], [] => true
  | x :: a', y :: b' => N.eqb x y && eqb a' b'
  | _, _ => false
  end.

Fixpoint mem (s : str) (l : list str) : bool :=
  match l with
  | [] => false
  | x :: l' => eqb s x || mem s l'
  end.

(** [str.isspace] for one code point. *)
Definition is_space (c : N) : bool :=
  ((9 <=? c) && (c <=? 13) || (28 <=? c) && (c <=? 32)
   || (c =? 133) || (c =? 160) || (c =? 5760)
   || (8192 <=? c) && (c <=? 8202)
   || (c =? 8232) || (c =? 8233) || (c =? 8239) || (c =? 8287)
   || (c =? 12288))%N.

Fixpoint lstrip (s : str) : str :=
  match s with
  | [] => []
  | c :: r => if is_space c then lstrip r else s
  end.

(** [s.strip()] *)
Definition strip (s : str) : str := rev (lstrip (rev (lstrip s))).

(** Decimal digits, most significant first. *)
Fixpoint uint_chars (d : Decimal.uint) : str :=
  match d with
  | Decimal.Nil => []
  | Decimal.D0 d => 48%N :: uint_chars d
  | Decimal.D1 d => 49%N :: uint_chars d
  | Decimal.D2 d => 50%N :: uint_chars d
  | Decimal.D3 d => 51%N :: uint_chars d
  | Decimal.D4 d => 52%N :: uint_chars d
  | Decimal.D5 d => 53%N :: uint_chars d
  | Decimal.D6 d => 54%N :: uint_chars d
  | Decimal.D7 d => 55%N :: uint_chars d
  | Decimal.D8 d => 56%N :: uint_chars d
  | Decimal.D9 d => 57%N :: uint_chars d
  end.

(** [str(n)] for an [int]. *)
Definition of_Z (z : Z) : str :=
  match z with
  | Z0 => [48%N]
  | Zpos p => uint_chars (Pos.to_uint p)
  | Zneg p => 45%N :: uint_chars (Pos.to_uint p)
  end.

Definition is_digit (c : N) : bool := ((48 <=? c) && (c <=? 57))%N.

(** The digit [c] put in front of the digits [d]. *)
Definition push_digit (c : N) (d : Decimal.uint) : Decimal.uint :=
  match c with
  | 48 => Decimal.D0 d | 49 => Decimal.D1 d | 50 => Decimal.D2 d
  | 51 => Decimal.D3 d | 52 => Decimal.D4 d | 53 => Decimal.D5 d
  | 54 => Decimal.D6 d | 55 => Decimal.D7 d | 56 => Decimal.D8 d
  | _ => Decimal.D9 d
  end%N.

(** The longest prefix of decimal digits and what follows it. *)
Fixpoint span_digits (s : str) : Decimal.uint * str :=
  match s with
  | [] => (Decimal.Nil, [])
  | c :: r =>
      if is_digit c
      then let '(d, rest) := span_digits r in (push_digit c d, rest)
      else (Decimal.Nil, s)
  end.

(** Digits of an [int] literal: groups of digits separated by single
    underscores. *)
Fixpoint int_digits (after_digit : bool) (s : str) : option Decimal.uint :=
  match s with
  | [] => if after_digit then Some Decimal.Nil else None
  | c :: r =>
      if (c =? 95)%N
      then if after_digit then int_digits false r else None
      else if is_digit c
           then option_map (push_digit c) (int_digits true r)
           else None
  end.

(** [int(s)] for a [str]: [None] stands for [ValueError].  Decimal digits
    other than the ASCII ones are not recognised. *)
Definition to_Z (s : str) : option Z :=
  match strip s with
  | 45%N :: r => option_map (fun d => (- Z.of_N (N.of_uint d))%Z) (int_digits false r)
  | 43%N :: r => option_map (fun d => Z.of_N (N.of_uint d)) (int_digits false r)
  | r => option_map (fun d => Z.of_N (N.of_uint d)) (int_digits false r)
  end.

(** The newline character as a string. *)
Definition nl : str := [10%N].

(** [sep.join(parts)] *)
Fixpoint join (sep : str) (parts : list str) : str :=
  match parts with
  | [] => []
  | [p] => p
  | p :: ps => p ++ sep ++ join sep ps
  end.

End Str.

Abbreviation str := Str.str.
Abbreviation u := Str.u.

(* ================================================================== *)
(** * Python values *)

(** What [response.json()] can return: [None], [bool], [int], [str],
    [list] and [dict] with [str] keys, in insertion order. *)
Inductive json : Type :=
| JNull
| JBool (b : bool)
| JInt (z : Z)
| JStr (s : str)
| JList (l : list json)
| JDict (d : list (str * json)).

(** Exceptions (subclasses of [Exception]); [exn_msg] is [str(e)]. *)
Inductive exn_class :=
| KeyError | TypeError | AttributeError | IndexError | EOFError
| OSError | UnicodeDecodeError | JSONDecodeError | TransportError.

Record exn := Exn { exn_cls : exn_class; exn_msg : str }.

Definition result (A : Type) := (exn + A)%type.

Definition type_name (v : json) : str :=
  match v with
  | JNull => u "NoneType"
  | JBool _ => u "bool"
  | JInt _ => u "int"
  | JStr _ => u "str"
  | JList _ => u "list"
  | JDict _ => u "dict"
  end.

Fixpoint assoc (k : str) (d : list (str * json)) : option json :=
  match d with
  | [] => None
  | (k', v) :: d' => if Str.eqb k k' then Some v else assoc k d'
  end.

(** [l[i]] for a Python list. *)
Definition list_getitem {A : Type} (l : list A) (i : Z) : result A :=
  let n := Z.of_nat (length l) in
  let j := if (i <? 0)%Z then (i + n)%Z else i in
  if ((j <? 0) || (n <=? j))%Z
  then inl (Exn IndexError (u "list index out of range"))
  else match nth_error l (Z.to_nat j) with
       | Some x => inr x
       | None => inl (Exn IndexError (u "list index out of range"))
       end.

(** [iter(v)]: the elements a [for] loop visits. *)
Definition py_iter (v : json) : result (list json) :=
  match v with
  | JList l => inr l
  | JDict d => inr (map (fun kv => JStr (fst kv)) d)
  | JStr s => inr (map (fun c => JStr [c]) s)
  | _ => inl (Exn TypeError (u "'" ++ type_name v ++ u "' object is not iterable"))
  end.

(** [len(v)] *)
Definition py_len (v : json) : result Z :=
  match v with
  | JList l => inr (Z.of_nat (length l))
  | JDict d => inr (Z.of_nat (length d))
  | JStr s => inr (Z.of_nat (length s))
  | _ => inl (Exn TypeError (u "object of type '" ++ type_name v ++ u "' has no len()"))
  end.

(** [v[i]] for an [int] index. *)
Definition py_getitem_int (v : json) (i : Z) : result json :=
  match v with
  | JList l => list_getitem l i
  | JStr s =>
      match list_getitem s i with
      | inr c => inr (JStr [c])
      | inl _ => inl (Exn IndexError (u "string index out of range"))
      end
  | JDict _ => inl (Exn KeyError (Str.of_Z i))
  | _ => inl (Exn TypeError (u "'" ++ type_name v ++ u "' object is not subscriptable"))
  end.

(** [v["name"]]: only a [dict] can be indexed by a [str]; [str(KeyError(k))]
    is the [repr] of the key. *)
Definition py_getitem_name (v : json) : result json :=
  match v with
  | JDict d =>
      match assoc (u "name") d with
      | Some x => inr x
      | None => inl (Exn KeyError (u "'name'"))
      end
  | JList _ => inl (Exn TypeError (u "list indices must be integers or slices, not str"))
  | JStr _ => inl (Exn TypeError (u "string indices must be integers, not 'str'"))
  | _ => inl (Exn TypeError (u "'" ++ type_name v ++ u "' object is not subscriptable"))
  end.

(** [[f(x) for x in l]] where [f] may raise: the first failure wins. *)
Fixpoint map_result {A B : Type} (f : A -> result B) (l : list A) : result (list B) :=
  match l with
  | [] => inr []
  | x :: l' =>
      match f x with
      | inl e => inl e
      | inr y =>
          match map_result f l' with
          | inl e => inl e
          | inr ys => inr (y :: ys)
          end
      end
  end.

(* ================================================================== *)
(** * Text files *)

Module Text.

(** A continuation byte of UTF-8. *)
Definition cont (b : N) : bool := ((128 <=? b) && (b <=? 191))%N.

(** The strict UTF-8 codec ([None] stands for [UnicodeDecodeError]):
    the preferred encoding of text-mode [open] is taken to be UTF-8. *)
Fixpoint utf8_decode (bs : list N) : option str :=
  match bs with
  | [] => Some []
  | b1 :: r1 =>
      if (b1 <? 128)%N then option_map (cons b1) (utf8_decode r1)
      else if ((194 <=? b1) && (b1 <=? 223))%N then
        match r1 with
        | b2 :: r2 =>
            if cont b2
            then option_map (cons ((b1 - 192) * 64 + (b2 - 128))%N) (utf8_decode r2)
            else None
        | _ => None
        end
      else if ((224 <=? b1) && (b1 <=? 239))%N then
        match r1 with
        | b2 :: b3 :: r3 =>
            if cont b2 && cont b3
               && (negb (b1 =? 224) || (160 <=? b2))%N
               && (negb (b1 =? 237) || (b2 <=? 159))%N
            then option_map
                   (cons (((b1 - 224) * 64 + (b2 - 128)) * 64 + (b3 - 128))%N)
                   (utf8_decode r3)
            else None
        | _ => None
        end
      else if ((240 <=? b1) && (b1 <=? 244))%N then
        match r1 with
        | b2 :: b3 :: b4 :: r4 =>
            if cont b2 && cont b3 && cont b4
               && (negb (b1 =? 240) || (144 <=? b2))%N
               && (negb (b1 =? 244) || (b2 <=? 143))%N
            then option_map
                   (cons ((((b1 - 240) * 64 + (b2 - 128)) * 64 + (b3 - 128)) * 64
                          + (b4 - 128))%N)
                   (utf8_decode r4)
            else None
        | _ => None
        end
      else None
  end.

Definition is_surrogate (c : N) : bool := ((55296 <=? c) && (c <=? 57343))%N.

(** The UTF-8 bytes of one code point; a surrogate has none. *)
Definition utf8_char (c : N) : option (list N) :=
  (if c <? 128 then Some [c]
   else if c <? 2048 then Some [192 + c / 64; 128 + c mod 64]
   else if is_surrogate c then None
   else if c <? 65536
   then Some [224 + c / 4096; 128 + (c / 64) mod 64; 128 + c mod 64]
   else if c <? 1114112
   then Some [240 + c / 262144; 128 + (c / 4096) mod 64;
              128 + (c / 64) mod 64; 128 + c mod 64]
   else None)%N.

(** [s.encode("utf-8")]; [None] stands for [UnicodeEncodeError]. *)
Fixpoint utf8_encode (s : str) : option (list N) :=
  match s with
  | [] => Some []
  | c :: r =>
      match utf8_char c, utf8_encode r with
      | Some b, Some bs => Some (b ++ bs)
      | _, _ => None
      end
  end.

(** Universal newlines on reading: [\r\n] and a lone [\r] become [\n]. *)
Fixpoint universal_newlines (s : str) : str :=
  match s with
  | [] => []
  | c :: r =>
      if (c =? 13)%N
      then 10%N :: match r with
                   | c' :: r' => if (c' =? 10)%N then universal_newlines r'
                                 else universal_newlines r
                   | [] => []
                   end
      else c :: universal_newlines r
  end.

(** [f.read()] on a file opened with mode ["r"], from its bytes. *)
Definition read_text (bs : list byte) : result str :=
  match utf8_decode (map Byte.to_N bs) with
  | Some s => inr (universal_newlines s)
  | None => inl (Exn UnicodeDecodeError (u "'utf-8' codec can't decode bytes"))
  end.

(** [posixpath.basename]: what follows the last slash. *)
Fixpoint basename (p : str) : str :=
  match p with
  | [] => []
  | c :: r => if existsb (N.eqb 47) r then basename r
              else if (c =? 47)%N then r else p
  end.

End Text.

(* ================================================================== *)
(** * Runs: outcomes, events and the world *)

(** The multipart [files] argument: field name, then (filename, content). *)
Definition files := list (str * (str * str)).

Inductive event : Type :=
| Print (text : str)                       (* console.print(text) *)
| ProgressTask (description : str)         (* Progress(...).add_task *)
| Prompt (prompt : str) (choices : list str)  (* one round of IntPrompt *)
| FileOpen (path : str)                    (* open(path, "r") *)
| ClientOpen                               (* async with httpx.AsyncClient() *)
| ClientClose
| HttpGet (url : str)                      (* client.get(url) *)
| HttpPost (url : str) (f : files) (timeout : Z).  (* client.post(url, files=f) *)

Record response := Response {
  status_code : Z;
  json_result : result json      (* what [response.json()] returns or raises *)
}.

(** The file system and the server, as the program meets them. *)
Record World := {
  path_exists : str -> bool;                       (* os.path.exists *)
  file_bytes : str -> result (list byte);          (* opening and reading *)
  http_get : str -> result response;
  http_post : str -> files -> result response
}.

(** How a computation ends: it returns, raises an [Exception], or raises
    [SystemExit], which [except Exception] does not catch. *)
Inductive outcome (A : Type) : Type :=
| Return (a : A)
| Raise (e : exn)
| SysExit (code : Z).
Arguments Return {A} a.
Arguments Raise {A} e.
Arguments SysExit {A} code.

Record run (A : Type) := Run {
  outcome_of : outcome A;
  stdin_left : list str;
  trace : list event
}.

(** A computation reads lines of standard input and leaves a trace. *)
Definition M (A : Type) := list str -> run A.

Definition ret {A} (a : A) : M A := fun i => Run (Return a) i [].
Definition raise {A} (e : exn) : M A := fun i => Run (Raise e) i [].
Definition sys_exit {A} (code : Z) : M A := fun i => Run (SysExit code) i [].
Definition emit (e : event) : M unit := fun i => Run (Return tt) i [e].

Definition bind {A B} (m : M A) (k : A -> M B) : M B :=
  fun i =>
    let r := m i in
    match outcome_of r with
    | Return a =>
        let r' := k a (stdin_left r) in
        Run (outcome_of r') (stdin_left r') (trace r ++ trace r')
    | Raise e => Run (Raise e) (stdin_left r) (trace r)
    | SysExit c => Run (SysExit c) (stdin_left r) (trace r)
    end.

(** [try: m  except Exception as e: h e] *)
Definition try_except {A} (m : M A) (h : exn -> M A) : M A :=
  fun i =>
    let r := m i in
    match outcome_of r with
    | Raise e =>
        let r' := h e (stdin_left r) in
        Run (outcome_of r') (stdin_left r') (trace r ++ trace r')
    | _ => r
    end.

(** Leaving a [with] block: the event [e] happens however [m] ends. *)
Definition finally {A} (m : M A) (e : event) : M A :=
  fun i => let r := m i in Run (outcome_of r) (stdin_left r) (trace r ++ [e]).

Definition lift {A} (r : result A) : M A :=
  match r with
  | inl e => raise e
  | inr a => ret a
  end.

Declare Scope py_scope.
Delimit Scope py_scope with py.
Notation "x <- m ;; k" := (bind m (fun x => k))
  (at level 61, m at next level, right associativity) : py_scope.
Notation "m ;; k" := (bind m (fun _ => k))
  (at level 61, right associativity) : py_scope.
Open Scope py_scope.

Definition console_print (text : str) : M unit := emit (Print text).

(* ================================================================== *)
(** * rich's IntPrompt *)

Module IntPrompt.

Definition validate_error_message : str :=
  u "[prompt.invalid]Please enter a valid integer number".
Definition illegal_choice_message : str :=
  u "[prompt.invalid.choice]Please select one of the available options".

(** [process_response]: the value is stripped and converted with [int];
    then [check_choice] looks the stripped text up in the choices.  [inl]
    carries the message of [InvalidResponse]. *)
Definition process_response (choices : list str) (value : str) : str + Z :=
  let value := Str.strip value in
  match Str.to_Z value with
  | None => inl validate_error_message
  | Some n =>
      if Str.mem (Str.strip value) choices then inr n
      else inl illegal_choice_message
  end.

(** The loop of [__call__]: a line is read (end of input raises
    [EOFError]); an invalid response is reported and the prompt repeats. *)
Fixpoint ask (prompt : str) (choices : list str) (stdin : list str) : run Z :=
  match stdin with
  | [] => Run (Raise (Exn EOFError (u "EOF when reading a line"))) []
              [Prompt prompt choices]
  | value :: stdin' =>
      match process_response choices value with
      | inr n => Run (Return n) stdin' [Prompt prompt choices]
      | inl msg =>
          let r := ask prompt choices stdin' in
          Run (outcome_of r) (stdin_left r)
              (Prompt prompt choices :: Print msg :: trace r)
      end
  end.

End IntPrompt.

(** [[str(i) for i in range(1, n + 1)]] *)
Definition choices_upto (n : Z) : list str :=
  map (fun i => Str.of_Z (Z.of_nat i)) (seq 1 (Z.to_nat n)).

(** [for idx, x in enumerate(items, idx): console.print(f"{idx}. {x}")] *)
Fixpoint print_menu (idx : Z) (items : list str) : M unit :=
  match items with
  | [] => ret tt
  | x :: items' =>
      console_print (Str.of_Z idx ++ u ". " ++ x) ;;
      print_menu (idx + 1) items'
  end.

(* ================================================================== *)
(** * json.dumps(obj, indent=2) and json.loads *)

Module Json.

Definition hex_digit (n : N) : N := (if n <? 10 then 48 + n else 87 + n)%N.

(** ['{0:04x}'.format(n)] *)
Definition hex4 (n : N) : str :=
  [hex_digit (n / 4096); hex_digit ((n / 256) mod 16);
   hex_digit ((n / 16) mod 16); hex_digit (n mod 16)]%N.

Definition escape_u (n : N) : str := 92%N :: 117%N :: hex4 n.

(** The replacement of one character by [py_encode_basestring_ascii]
    ([ensure_ascii] is on by default): short escapes, printable ASCII as it
    is, [\uXXXX] otherwise, a surrogate pair above the basic plane. *)
Definition encode_char (c : N) : str :=
  (if c =? 34 then [92; 34]
   else if c =? 92 then [92; 92]
   else if c =? 10 then [92; 110]
   else if c =? 13 then [92; 114]
   else if c =? 9 then [92; 116]
   else if c =? 8 then [92; 98]
   else if c =? 12 then [92; 102]
   else if (32 <=? c) && (c <=? 126) then [c]
   else if c <? 65536 then escape_u c
   else let n := c - 65536 in
        escape_u (N.lor 55296 (N.land (N.shiftr n 10) 1023))
        ++ escape_u (N.lor 56320 (N.land n 1023)))%N.

Definition encode_string (s : str) : str :=
  34%N :: flat_map encode_char s ++ [34%N].

(** ['\n' + ' ' * 2 * level] *)
Definition newline_indent (level : nat) : str := 10%N :: repeat 32%N (2 * level).

(** [_iterencode] with [indent=2]: the item separator is [","] followed by
    the newline and indentation, the key separator is [": "]. *)
Fixpoint iterencode (level : nat) (v : json) : str :=
  match v with
  | JNull => u "null"
  | JBool true => u "true"
  | JBool false => u "false"
  | JInt z => Str.of_Z z
  | JStr s => encode_string s
  | JList l =>
      match l with
      | [] => u "[]"
      | _ => 91%N :: newline_indent (S level)
               ++ Str.join (44%N :: newline_indent (S level))
                    (map (iterencode (S level)) l)
               ++ newline_indent level ++ [93%N]
      end
  | JDict d =>
      match d with
      | [] => u "{}"
      | _ => 123%N :: newline_indent (S level)
               ++ Str.join (44%N :: newline_indent (S level))
                    (map (fun kv => encode_string (fst kv) ++ u ": "
                                      ++ iterencode (S level) (snd kv)) d)
               ++ newline_indent level ++ [125%N]
      end
  end.

Definition dumps (v : json) : str := iterencode 0 v.

(** [WHITESPACE = [ \t\n\r]*] *)
Definition is_ws (c : N) : bool :=
  ((c =? 32) || (c =? 9) || (c =? 10) || (c =? 13))%N.

Fixpoint skip_ws (s : str) : str :=
  match s with
  | [] => []
  | c :: r => if is_ws c then skip_ws r else s
  end.

Definition hex_val (c : N) : option N :=
  (if (48 <=? c) && (c <=? 57) then Some (c - 48)
   else if (97 <=? c) && (c <=? 102) then Some (c - 87)
   else if (65 <=? c) && (c <=? 70) then Some (c - 55)
   else None)%N.

(** [_decode_uXXXX]: four hexadecimal digits. *)
Definition decode_uXXXX (s : str) : option (N * str) :=
  match s with
  | a :: b :: c :: d :: r =>
      match hex_val a, hex_val b, hex_val c, hex_val d with
      | Some a, Some b, Some c, Some d => Some ((((a * 16 + b) * 16 + c) * 16 + d)%N, r)
      | _, _, _, _ => None
      end
  | _ => None
  end.

(** [BACKSLASH]: the one-letter escapes. *)
Definition backslash (esc : N) : option N :=
  (if esc =? 34 then Some 34
   else if esc =? 92 then Some 92
   else if esc =? 47 then Some 47
   else if esc =? 98 then Some 8
   else if esc =? 102 then Some 12
   else if esc =? 110 then Some 10
   else if esc =? 114 then Some 13
   else if esc =? 116 then Some 9
   else None)%N.

Definition is_high (c : N) : bool := ((55296 <=? c) && (c <=? 56319))%N.
Definition is_low (c : N) : bool := ((56320 <=? c) && (c <=? 57343))%N.

(** A [\uXXXX] escape, on the text after the [u]: a high surrogate is
    joined with a low surrogate escaped right after it. *)
Definition scan_u (r1 : str) : option (option N * str) :=
  match decode_uXXXX r1 with
  | None => None
  | Some (uni, r2) =>
      if is_high uni then
        match r2 with
        | c1 :: c2 :: r3 =>
            if ((c1 =? 92) && (c2 =? 117))%N then
              match decode_uXXXX r3 with
              | None => None
              | Some (uni2, r4) =>
                  if is_low uni2
                  then Some (Some (65536 + N.lor (N.shiftl (uni - 55296) 10)
                                             (uni2 - 56320))%N, r4)
                  else Some (Some uni, r2)
              end
            else Some (Some uni, r2)
        | _ => Some (Some uni, r2)
        end
      else Some (Some uni, r2)
  end.

(** One round of the loop of [scanstring] (strict mode), on the text after
    the opening quote: [Some (None, r)] at the closing quote, [Some (Some c,
    r)] for a character, [None] for an error. *)
Definition scan_char (s : str) : option (option N * str) :=
  match s with
  | [] => None
  | c :: r =>
      if (c =? 34)%N then Some (None, r)
      else if (c =? 92)%N then
        match r with
        | [] => None
        | esc :: r1 =>
            if (esc =? 117)%N then scan_u r1
            else match backslash esc with
                 | Some ch => Some (Some ch, r1)
                 | None => None
                 end
        end
      else if (c <? 32)%N then None
      else Some (Some c, r)
  end.

Fixpoint scanstring_loop (fuel : nat) (s : str) : option (str * str) :=
  match fuel with
  | O => None
  | S fuel' =>
      match scan_char s with
      | None => None
      | Some (None, r) => Some ([], r)
      | Some (Some c, r) =>
          match scanstring_loop fuel' r with
          | Some (cs, r') => Some (c :: cs, r')
          | None => None
          end
      end
  end.

(** [scanstring(s, end)]: every round consumes a character. *)
Definition scanstring (s : str) : option (str * str) :=
  scanstring_loop (length s) s.

Definition starts_frac (s : str) : bool :=
  match s with
  | c :: d :: _ => (c =? 46)%N && Str.is_digit d
  | _ => false
  end.

Definition starts_exp (s : str) : bool :=
  match s with
  | c :: r =>
      ((c =? 101) || (c =? 69))%N
      && match r with
         | d :: r' =>
             if ((d =? 43) || (d =? 45))%N
             then match r' with d' :: _ => Str.is_digit d' | [] => false end
             else Str.is_digit d
         | [] => false
         end
  | [] => false
  end.

(** [NUMBER_RE]: an optional minus sign, then [0] or a run of digits that
    does not start with [0].  With a fraction or an exponent the literal is
    a [float], for which the embedding has no value. *)
Definition scan_number (s : str) : option (json * str) :=
  let '(neg, s1) :=
    match s with
    | c :: r => if (c =? 45)%N then (true, r) else (false, s)
    | [] => (false, s)
    end in
  match s1 with
  | [] => None
  | c :: r =>
      if Str.is_digit c then
        let '(d, rest) :=
          if (c =? 48)%N then (Decimal.D0 Decimal.Nil, r) else Str.span_digits s1 in
        if starts_frac rest || starts_exp rest then None
        else let n := Z.of_N (N.of_uint d) in
             Some (JInt (if neg then - n else n)%Z, rest)
      else None
  end.

Definition starts_with (p s : str) : option str :=
  if Str.eqb (firstn (length p) s) p then Some (skipn (length p) s) else None.

(** The loop of [JSONArray], entered at the first value. *)
Fixpoint array_items (scan : str -> option (json * str)) (fuel : nat) (s : str)
  : option (list json * str) :=
  match fuel with
  | O => None
  | S fuel' =>
      match scan s with
      | None => None
      | Some (v, r) =>
          match skip_ws r with
          | c :: r' =>
              if (c =? 93)%N then Some ([v], r')
              else if (c =? 44)%N then
                match array_items scan fuel' (skip_ws r') with
                | Some (vs, r'') => Some (v :: vs, r'')
                | None => None
                end
              else None
          | [] => None
          end
      end
  end.

(** The loop of [JSONObject], entered after the opening quote of a key. *)
Fixpoint object_items (scan : str -> option (json * str)) (fuel : nat) (s : str)
  : option (list (str * json) * str) :=
  match fuel with
  | O => None
  | S fuel' =>
      match scanstring s with
      | None => None
      | Some (key, r) =>
          match skip_ws r with
          | c :: r1 =>
              if (c =? 58)%N then
                match scan (skip_ws r1) with
                | None => None
                | Some (v, r2) =>
                    match skip_ws r2 with
                    | c' :: r3 =>
                        if (c' =? 125)%N then Some ([(key, v)], r3)
                        else if (c' =? 44)%N then
                          match skip_ws r3 with
                          | q :: r4 =>
                              if (q =? 34)%N then
                                match object_items scan fuel' r4 with
                                | Some (kvs, r5) => Some ((key, v) :: kvs, r5)
                                | None => None
                                end
                              else None
                          | [] => None
                          end
                        else None
                    | [] => None
                    end
                end
              else None
          | [] => None
          end
      end
  end.

(** [d[k] = v] on a dict in insertion order. *)
Fixpoint dict_set (k : str) (v : json) (d : list (str * json)) : list (str * json) :=
  match d with
  | [] => [(k, v)]
  | (k', v') :: d' =>
      if Str.eqb k k' then (k', v) :: d' else (k', v') :: dict_set k v d'
  end.

(** [dict(pairs)] *)
Definition dict_of_pairs (pairs : list (str * json)) : list (str * json) :=
  fold_left (fun d kv => dict_set (fst kv) (snd kv) d) pairs [].

(** [scan_once]: the fuel bounds the nesting and the number of items. *)
Fixpoint scan_once (fuel : nat) (s : str) : option (json * str) :=
  match fuel with
  | O => None
  | S fuel' =>
      match s with
      | [] => None
      | c :: r =>
          if (c =? 34)%N then
            match scanstring r with
            | Some (x, r') => Some (JStr x, r')
            | None => None
            end
          else if (c =? 123)%N then
            match skip_ws r with
            | q :: r1 =>
                if (q =? 125)%N then Some (JDict [], r1)
                else if (q =? 34)%N then
                  match object_items (scan_once fuel') fuel' r1 with
                  | Some (pairs, r2) => Some (JDict (dict_of_pairs pairs), r2)
                  | None => None
                  end
                else None
            | [] => None
            end
          else if (c =? 91)%N then
            match skip_ws r with
            | q :: r1 =>
                if (q =? 93)%N then Some (JList [], r1)
                else match array_items (scan_once fuel') fuel' (skip_ws r) with
                     | Some (vs, r2) => Some (JList vs, r2)
                     | None => None
                     end
            | [] => None
            end
          else
            match starts_with (u "null") s with
            | Some r' => Some (JNull, r')
            | None =>
                match starts_with (u "true") s with
                | Some r' => Some (JBool true, r')
                | None =>
                    match starts_with (u "false") s with
                    | Some r' => Some (JBool false, r')
                    | None => scan_number s
                    end
                end
            end
      end
  end.

(** [json.loads(s)] for a [str]: [None] stands for [JSONDecodeError]. *)
Definition loads (s : str) : option json :=
  match s with
  | c :: _ => if (c =? 65279)%N then None else
      match scan_once (S (length s)) (skip_ws s) with
      | Some (v, r) =>
          match skip_ws r with
          | [] => Some v
          | _ => None
          end
      | None => None
      end
  | [] => None
  end.

End Json.

(* ================================================================== *)
(** * main.py *)

Section Main.

(** [str.lower], which follows the Unicode case mappings, and [str(v)] for
    a value that is not a [str] are taken as given. *)
Variable str_lower : str -> str.
Variable py_str : json -> str.
Variable w : World.

(** [f"{v}"] *)
Definition format (v : json) : str :=
  match v with
  | JStr s => s
  | _ => py_str v
  end.

(** [v.lower()]: only a [str] has the method. *)
Definition py_lower (v : json) : result str :=
  match v with
  | JStr s => inr (str_lower s)
  | _ => inl (Exn AttributeError
                  (u "'" ++ type_name v ++ u "' object has no attribute 'lower'"))
  end.

Definition BASE_URL : str := u "http://localhost:8000".

(** [async with httpx.AsyncClient() as client: body] *)
Definition with_client {A} (body : M A) : M A :=
  emit ClientOpen ;; finally body ClientClose.

(** [with Progress(...) as progress: progress.add_task(description); body] *)
Definition with_progress {A} (description : str) (body : M A) : M A :=
  emit (ProgressTask description) ;; body.

Definition client_get (url : str) : M response :=
  emit (HttpGet url) ;; lift (http_get w url).

Definition client_post (url : str) (f : files) (timeout : Z) : M response :=
  emit (HttpPost url f timeout) ;; lift (http_post w url f).

(** [with open(filepath, "r") as f: f.read()] *)
Definition open_read (filepath : str) : M str :=
  emit (FileOpen filepath) ;;
  bs <- lift (file_bytes w filepath) ;;
  lift (Text.read_text bs).

Definition fetch_leaderboards : M json :=
  with_client (
    response <- client_get (BASE_URL ++ u "/leaderboards") ;;
    if negb (status_code response =? 200)%Z
    then console_print (u "[red]Failed to fetch leaderboards[/red]") ;;
         sys_exit 1
    else lift (json_result response)).

Definition fetch_available_gpus (leaderboard runner : str) : M json :=
  with_client (
    response <- client_get (BASE_URL ++ u "/" ++ leaderboard ++ u "/"
                              ++ runner ++ u "/gpus") ;;
    if negb (status_code response =? 200)%Z
    then console_print (u "[red]Failed to fetch GPUs[/red]") ;;
         sys_exit 1
    else lift (json_result response)).

(** The result is a Python value: [JNull] is [None]. *)
Definition submit_solution (leaderboard runner gpu filepath : str) : M json :=
  solution_content <- open_read filepath ;;
  let filename := Text.basename filepath in
  with_client (
    response <- client_post
                  (BASE_URL ++ u "/" ++ leaderboard ++ u "/" ++ runner
                     ++ u "/" ++ gpu)
                  [(u "file", (filename, solution_content))] 600 ;;
    if negb (status_code response =? 200)%Z
    then console_print (u "[red]Failed to submit solution[/red]") ;;
         ret JNull
    else lift (json_result response)).

Definition runners : list str := [u "modal"; u "github"].

(** The [try] block of [_submit]. *)
Definition _submit_body (filepath : str) : M unit :=
  (if negb (path_exists w filepath)
   then console_print (u "[red]Error: File '" ++ filepath
                         ++ u "' not found[/red]") ;;
        sys_exit 1
   else ret tt) ;;
  leaderboard_names <-
    with_progress (u "Fetching available leaderboards...") (
      leaderboards <- fetch_leaderboards ;;
      items <- lift (py_iter leaderboards) ;;
      lift (map_result py_getitem_name items)) ;;
  console_print (Str.nl ++ u "[bold blue]Available Leaderboards:[/bold blue]") ;;
  print_menu 1 (map format leaderboard_names) ;;
  leaderboard_idx <-
    IntPrompt.ask (Str.nl ++ u "Select leaderboard number")
      (choices_upto (Z.of_nat (length leaderboard_names))) ;;
  selected_leaderboard <- lift (list_getitem leaderboard_names (leaderboard_idx - 1)) ;;
  console_print (Str.nl ++ u "[bold blue]Available Runners:[/bold blue]") ;;
  print_menu 1 runners ;;
  runner_idx <- IntPrompt.ask (Str.nl ++ u "Select runner number") [u "1"; u "2"] ;;
  selected_runner <- lift (list_getitem runners (runner_idx - 1)) ;;
  gpus <-
    with_progress (u "Fetching available GPUs...")
      (fetch_available_gpus (format selected_leaderboard) selected_runner) ;;
  console_print (Str.nl ++ u "[bold blue]Available GPUs:[/bold blue]") ;;
  gpu_items <- lift (py_iter gpus) ;;
  print_menu 1 (map format gpu_items) ;;
  n_gpus <- lift (py_len gpus) ;;
  gpu_idx <- IntPrompt.ask (Str.nl ++ u "Select GPU number") (choices_upto n_gpus) ;;
  selected_gpu <- lift (py_getitem_int gpus (gpu_idx - 1)) ;;
  selected_leaderboard <- lift (py_lower selected_leaderboard) ;;
  let selected_runner := str_lower selected_runner in
  selected_gpu <- lift (py_lower selected_gpu) ;;
  result <-
    with_progress (u "Submitting solution...")
      (submit_solution selected_leaderboard selected_runner selected_gpu filepath) ;;
  match result with
  | JNull => console_print (u "[red]Failed to submit solution[/red]")
  | _ =>
      let formatted_result := Json.dumps result in
      console_print (Str.nl ++ u "[bold blue]Result:[/bold blue]") ;;
      console_print formatted_result ;;
      console_print (u "[green]Solution submitted successfully![/green]")
  end.

(** [async def _submit(filepath)] *)
Definition _submit (filepath : str) : M unit :=
  try_except (_submit_body filepath)
    (fun e =>
       console_print (Str.nl ++ u "[red]Error: " ++ exn_msg e ++ u "[/red]") ;;
       sys_exit 1).

(** The exit status of the process running [submit filepath]: [sys.exit(c)]
    gives [c], a normal return 0, and an exception that escapes 1. *)
Definition exit_status {A} (o : outcome A) : Z :=
  match o with
  | Return _ => 0
  | SysExit c => c
  | Raise _ => 1
  end.

End Main.

(* ================================================================== *)
(** * Running computations *)

(** The run [r] after the events [t]. *)
Definition after {A} (t : list event) (r : run A) : run A :=
  Run (outcome_of r) (stdin_left r) (t ++ trace r).

Lemma after_nil {A} (r : run A) : after [] r = r.
Proof. destruct r; reflexivity. Qed.

Lemma after_after {A} (t1 t2 : list event) (r : run A) :
  after t1 (after t2 r) = after (t1 ++ t2) r.
Proof. unfold after; simpl. now rewrite app_assoc. Qed.

Lemma bind_run {A B} (m : M A) (k : A -> M B) (i : list str) :
  bind m k i =
  match outcome_of (m i) with
  | Return a => after (trace (m i)) (k a (stdin_left (m i)))
  | Raise e => Run (Raise e) (stdin_left (m i)) (trace (m i))
  | SysExit c => Run (SysExit c) (stdin_left (m i)) (trace (m i))
  end.
Proof. reflexivity. Qed.

Lemma bind_emit {B} (e : event) (k : unit -> M B) (i : list str) :
  bind (emit e) k i = after [e] (k tt i).
Proof. reflexivity. Qed.

Lemma bind_print {B} (s : str) (k : unit -> M B) (i : list str) :
  bind (console_print s) k i = after [Print s] (k tt i).
Proof. reflexivity. Qed.

Lemma bind_ret {A B} (a : A) (k : A -> M B) (i : list str) :
  bind (ret a) k i = k a i.
Proof. unfold bind, ret; simpl. now destruct (k a i). Qed.

Lemma bind_lift_inr {A B} (a : A) (k : A -> M B) (i : list str) :
  bind (lift (inr a)) k i = k a i.
Proof. apply bind_ret. Qed.

Lemma bind_lift_inl {A B} (e : exn) (k : A -> M B) (i : list str) :
  bind (lift (inl e)) k i = Run (Raise e) i [].
Proof. reflexivity. Qed.

Lemma bind_sys_exit {A B} (c : Z) (k : A -> M B) (i : list str) :
  bind (sys_exit c) k i = Run (SysExit c) i [].
Proof. reflexivity. Qed.

(** Events of the kinds the properties speak of. *)
Definition is_get (e : event) : bool :=
  match e with HttpGet _ => true | _ => false end.
Definition is_post (e : event) : bool :=
  match e with HttpPost _ _ _ => true | _ => false end.
Definition is_http (e : event) : bool := is_get e || is_post e.
Definition is_prompt (e : event) : bool :=
  match e with Prompt _ _ => true | _ => false end.

Section Runs.

Variable str_lower : str -> str.
Variable py_str : json -> str.
Variable w : World.

Definition leaderboards_url : str := BASE_URL ++ u "/leaderboards".

Definition gpus_url (leaderboard runner : str) : str :=
  BASE_URL ++ u "/" ++ leaderboard ++ u "/" ++ runner ++ u "/gpus".

Definition submit_url (leaderboard runner gpu : str) : str :=
  BASE_URL ++ u "/" ++ leaderboard ++ u "/" ++ runner ++ u "/" ++ gpu.

(** What a fetch does, by the answer of the server. *)
Definition fetch_run (url failure : str) (i : list str) : run json :=
  match http_get w url with
  | inl e => Run (Raise e) i [ClientOpen; HttpGet url; ClientClose]
  | inr resp =>
      if (status_code resp =? 200)%Z then
        match json_result resp with
        | inl e => Run (Raise e) i [ClientOpen; HttpGet url; ClientClose]
        | inr v => Run (Return v) i [ClientOpen; HttpGet url; ClientClose]
        end
      else Run (SysExit 1) i [ClientOpen; HttpGet url; Print failure; ClientClose]
  end.

Lemma fetch_leaderboards_run (i : list str) :
  fetch_leaderboards w i
  = fetch_run leaderboards_url (u "[red]Failed to fetch leaderboards[/red]") i.
Proof.
  unfold fetch_leaderboards, fetch_run, with_client, client_get, finally, bind,
    leaderboards_url; simpl.
  destruct (http_get w _) as [e|resp]; simpl; [reflexivity|].
  destruct (status_code resp =? 200)%Z; simpl; [|reflexivity].
  destruct (json_result resp); reflexivity.
Qed.

Lemma fetch_available_gpus_run (leaderboard runner : str) (i : list str) :
  fetch_available_gpus w leaderboard runner i
  = fetch_run (gpus_url leaderboard runner) (u "[red]Failed to fetch GPUs[/red]") i.
Proof.
  unfold fetch_available_gpus, fetch_run, with_client, client_get, finally, bind,
    gpus_url; simpl.
  destruct (http_get w _) as [e|resp]; simpl; [reflexivity|].
  destruct (status_code resp =? 200)%Z; simpl; [|reflexivity].
  destruct (json_result resp); reflexivity.
Qed.

(** What [open(filepath, "r")] and [f.read()] give. *)
Definition text_of (filepath : str) : result str :=
  match file_bytes w filepath with
  | inl e => inl e
  | inr bs => Text.read_text bs
  end.

(** What [submit_solution] does, by the file and the answer of the server. *)
Definition submit_run (leaderboard runner gpu filepath : str) (i : list str)
  : run json :=
  match text_of filepath with
  | inl e => Run (Raise e) i [FileOpen filepath]
  | inr content =>
      let url := submit_url leaderboard runner gpu in
      let f := [(u "file", (Text.basename filepath, content))] in
      match http_post w url f with
      | inl e =>
          Run (Raise e) i
              [FileOpen filepath; ClientOpen; HttpPost url f 600; ClientClose]
      | inr resp =>
          if (status_code resp =? 200)%Z then
            match json_result resp with
            | inl e =>
                Run (Raise e) i
                    [FileOpen filepath; ClientOpen; HttpPost url f 600; ClientClose]
            | inr v =>
                Run (Return v) i
                    [FileOpen filepath; ClientOpen; HttpPost url f 600; ClientClose]
            end
          else
            Run (Return JNull) i
                [FileOpen filepath; ClientOpen; HttpPost url f 600;
                 Print (u "[red]Failed to submit solution[/red]"); ClientClose]
      end
  end.

Lemma submit_solution_run (leaderboard runner gpu filepath : str) (i : list str) :
  submit_solution w leaderboard runner gpu filepath i
  = submit_run leaderboard runner gpu filepath i.
Proof.
  unfold submit_solution, submit_run, text_of, open_read, with_client,
    client_post, finally, bind, submit_url; simpl.
  destruct (file_bytes w filepath) as [e|bs]; simpl; [reflexivity|].
  destruct (Text.read_text bs) as [e|content]; simpl; [reflexivity|].
  destruct (http_post w _ _) as [e|resp]; simpl; [reflexivity|].
  destruct (status_code resp =? 200)%Z; simpl; [|reflexivity].
  destruct (json_result resp); reflexivity.
Qed.

(** The end of the [try] block: lines 127 to 145. *)
Definition report (result : json) : M unit :=
  match result with
  | JNull => console_print (u "[red]Failed to submit solution[/red]")
  | _ =>
      let formatted_result := Json.dumps result in
      console_print (Str.nl ++ u "[bold blue]Result:[/bold blue]") ;;
      console_print formatted_result ;;
      console_print (u "[green]Solution submitted successfully![/green]")
  end.

Definition finish (filepath leaderboard runner gpu : str) : M unit :=
  result <-
    with_progress (u "Submitting solution...")
      (submit_solution w leaderboard runner gpu filepath) ;;
  report result.

End Runs.

(* ================================================================== *)
(** * The selections of a run *)

(** The events of [print_menu]. *)
Fixpoint menu_events (idx : Z) (items : list str) : list event :=
  match items with
  | [] => []
  | x :: items' => Print (Str.of_Z idx ++ u ". " ++ x) :: menu_events (idx + 1) items'
  end.

Lemma print_menu_run (items : list str) :
  forall idx i, print_menu idx items i = Run (Return tt) i (menu_events idx items).
Proof.
  induction items as [|x items IH]; intros idx i; [reflexivity|].
  cbn [print_menu menu_events]. rewrite bind_print, IH. reflexivity.
Qed.

(** What the user chose and what the choices stand for, in the names of
    [_submit]. *)
Record selection := Selection {
  leaderboard_names : list json;
  leaderboard_idx : Z;
  selected_leaderboard : json;
  runner_idx : Z;
  selected_runner : str;
  gpus : json;
  gpu_idx : Z;
  selected_gpu : json;
  leaderboard_lower : str;
  gpu_lower : str
}.

Definition leaderboard_prompt : str := Str.nl ++ u "Select leaderboard number".
Definition runner_prompt : str := Str.nl ++ u "Select runner number".
Definition gpu_prompt : str := Str.nl ++ u "Select GPU number".

Lemma bind_assoc_run {A B C} (m : M A) (k : A -> M B) (h : B -> M C) (i : list str) :
  bind (bind m k) h i = bind m (fun a => bind (k a) h) i.
Proof.
  unfold bind. destruct (m i) as [[a|e|c] i1 t1]; simpl; try reflexivity.
  destruct (k a i1) as [[b|e|c] i2 t2]; simpl; try reflexivity.
  now rewrite app_assoc.
Qed.

Lemma bind_menu {B} (idx : Z) (items : list str) (k : unit -> M B) (i : list str) :
  bind (print_menu idx items) k i = after (menu_events idx items) (k tt i).
Proof. rewrite bind_run, print_menu_run. reflexivity. Qed.

Lemma ask_outcome (prompt : str) (choices : list str) (stdin : list str) :
  (exists n, outcome_of (IntPrompt.ask prompt choices stdin) = Return n)
  \/ (exists e, outcome_of (IntPrompt.ask prompt choices stdin) = Raise e).
Proof.
  induction stdin as [|v stdin IH]; cbn [IntPrompt.ask].
  - right. eexists. reflexivity.
  - destruct (IntPrompt.process_response choices v); cbn [outcome_of].
    + exact IH.
    + left. eexists. reflexivity.
Qed.

Lemma Forall_menu (P : event -> Prop) (items : list str) :
  (forall t, P (Print t)) -> forall idx, Forall P (menu_events idx items).
Proof.
  intros HP. induction items; intros idx; cbn [menu_events]; constructor; auto.
Qed.

Lemma Forall_ask (P : event -> Prop) (prompt : str) (choices : list str) :
  (forall t, P (Print t)) -> (forall p c, P (Prompt p c)) ->
  forall stdin, Forall P (trace (IntPrompt.ask prompt choices stdin)).
Proof.
  intros HP HQ. induction stdin as [|v stdin IH]; cbn [IntPrompt.ask].
  - repeat constructor. apply HQ.
  - destruct (IntPrompt.process_response choices v); cbn [trace];
      repeat constructor; auto.
Qed.

Ltac trace_ok :=
  repeat first
    [ apply Forall_nil
    | apply Forall_cons; [reflexivity|]
    | apply Forall_app; split
    | apply Forall_menu; intros; reflexivity
    | apply Forall_ask; intros; reflexivity ].

Ltac step :=
  first [ rewrite bind_assoc_run | rewrite bind_emit | rewrite bind_print
        | rewrite bind_menu | rewrite bind_ret | rewrite bind_lift_inr
        | rewrite after_after ].

Section Selection.

Variable str_lower : str -> str.
Variable py_str : json -> str.
Variable w : World.

Local Abbreviation format := (format py_str).
Local Abbreviation py_lower := (py_lower str_lower).

(** The three prompts of a run on the input [stdin]. *)
Definition ask_leaderboard (s : selection) (stdin : list str) : run Z :=
  IntPrompt.ask leaderboard_prompt
    (choices_upto (Z.of_nat (length (leaderboard_names s)))) stdin.

Definition ask_runner (s : selection) (stdin : list str) : run Z :=
  IntPrompt.ask runner_prompt [u "1"; u "2"] (stdin_left (ask_leaderboard s stdin)).

Definition ask_gpu (s : selection) (n_gpus : Z) (stdin : list str) : run Z :=
  IntPrompt.ask gpu_prompt (choices_upto n_gpus) (stdin_left (ask_runner s stdin)).

(** The run on [filepath] and [stdin] goes through lines 71 to 103 with the
    selections [s]: the file exists, the leaderboards are fetched with
    status 200 and have names, and the first two prompts are answered. *)
Inductive chooses_runner (filepath : str) (stdin : list str) (s : selection) : Prop :=
| ChoosesRunner (resp1 : response) (leaderboards : json) (items : list json)
    (Hexists : path_exists w filepath = true)
    (Hget1 : http_get w leaderboards_url = inr resp1)
    (Hstatus1 : status_code resp1 = 200%Z)
    (Hjson1 : json_result resp1 = inr leaderboards)
    (Hiter1 : py_iter leaderboards = inr items)
    (Hnames : map_result py_getitem_name items = inr (leaderboard_names s))
    (Hask1 : outcome_of (ask_leaderboard s stdin) = Return (leaderboard_idx s))
    (Hsel1 : list_getitem (leaderboard_names s) (leaderboard_idx s - 1)
             = inr (selected_leaderboard s))
    (Hask2 : outcome_of (ask_runner s stdin) = Return (runner_idx s))
    (Hsel2 : list_getitem runners (runner_idx s - 1) = inr (selected_runner s)).

(** It goes on through lines 105 to 125: the GPUs are fetched with status
    200, the third prompt is answered, and the selected leaderboard and GPU
    are strings. *)
Inductive selects (filepath : str) (stdin : list str) (s : selection) : Prop :=
| Selects (resp2 : response) (gpu_items : list json) (n_gpus : Z)
    (Hrunner : chooses_runner filepath stdin s)
    (Hget2 : http_get w (gpus_url (format (selected_leaderboard s)) (selected_runner s))
             = inr resp2)
    (Hstatus2 : status_code resp2 = 200%Z)
    (Hjson2 : json_result resp2 = inr (gpus s))
    (Hiter2 : py_iter (gpus s) = inr gpu_items)
    (Hlen : py_len (gpus s) = inr n_gpus)
    (Hask3 : outcome_of (ask_gpu s n_gpus stdin) = Return (gpu_idx s))
    (Hsel3 : py_getitem_int (gpus s) (gpu_idx s - 1) = inr (selected_gpu s))
    (Hlower1 : py_lower (selected_leaderboard s) = inr (leaderboard_lower s))
    (Hlower3 : py_lower (selected_gpu s) = inr (gpu_lower s)).

(** [len(gpus)] and the items of the GPU menu, for the values that have
    them. *)
Definition len_of (v : json) : Z :=
  match py_len v with inr n => n | inl _ => 0 end.
Definition items_of (v : json) : list json :=
  match py_iter v with inr l => l | inl _ => [] end.

(** The events up to the request for the GPUs. *)
Definition runner_trace (s : selection) (stdin : list str) : list event :=
  [ProgressTask (u "Fetching available leaderboards...");
   ClientOpen; HttpGet leaderboards_url; ClientClose;
   Print (Str.nl ++ u "[bold blue]Available Leaderboards:[/bold blue]")]
  ++ menu_events 1 (map format (leaderboard_names s))
  ++ trace (ask_leaderboard s stdin)
  ++ [Print (Str.nl ++ u "[bold blue]Available Runners:[/bold blue]")]
  ++ menu_events 1 runners
  ++ trace (ask_runner s stdin)
  ++ [ProgressTask (u "Fetching available GPUs...");
      ClientOpen;
      HttpGet (gpus_url (format (selected_leaderboard s)) (selected_runner s))].

(** The events of lines 71 to 125 in a run that gets to the submission. *)
Definition selection_trace (s : selection) (stdin : list str) : list event :=
  runner_trace s stdin
  ++ [ClientClose;
      Print (Str.nl ++ u "[bold blue]Available GPUs:[/bold blue]")]
  ++ menu_events 1 (map format (items_of (gpus s)))
  ++ trace (ask_gpu s (len_of (gpus s)) stdin).

Local Abbreviation body := (_submit_body str_lower py_str w).
Local Abbreviation fin := (finish w).

Lemma bind_fetch_leaderboards {B} (k : json -> M B) (i : list str) :
  bind (fetch_leaderboards w) k i
  = bind (fetch_run w leaderboards_url (u "[red]Failed to fetch leaderboards[/red]")) k i.
Proof. unfold bind. now rewrite fetch_leaderboards_run. Qed.

Lemma bind_fetch_gpus {B} (l r : str) (k : json -> M B) (i : list str) :
  bind (fetch_available_gpus w l r) k i
  = bind (fetch_run w (gpus_url l r) (u "[red]Failed to fetch GPUs[/red]")) k i.
Proof. unfold bind. now rewrite fetch_available_gpus_run. Qed.

Lemma selects_run (filepath : str) (stdin : list str) (s : selection) :
  selects filepath stdin s ->
  body filepath stdin
  = after (selection_trace s stdin)
      (fin filepath (leaderboard_lower s) (str_lower (selected_runner s))
         (gpu_lower s) (stdin_left (ask_gpu s (len_of (gpus s)) stdin))).
Proof.
  intros [? ? ? []].
  unfold _submit_body.
  rewrite Hexists. cbn [negb]. rewrite bind_ret.
  unfold with_progress.
  repeat step.
  rewrite bind_fetch_leaderboards, bind_run. unfold fetch_run.
  rewrite Hget1, Hstatus1, Hjson1. cbn [Z.eqb Pos.eqb outcome_of stdin_left trace].
  rewrite Hiter1. repeat step. rewrite Hnames. repeat step.
  rewrite bind_run.
  change (IntPrompt.ask _ _ stdin) with (ask_leaderboard s stdin).
  rewrite Hask1, Hsel1. repeat step.
  rewrite bind_run.
  change (IntPrompt.ask _ _ (stdin_left (ask_leaderboard s stdin)))
    with (ask_runner s stdin).
  rewrite Hask2, Hsel2. repeat step.
  rewrite bind_fetch_gpus, bind_run. unfold fetch_run.
  rewrite Hget2, Hstatus2, Hjson2. cbn [Z.eqb Pos.eqb outcome_of stdin_left trace].
  repeat step. rewrite Hiter2. repeat step. rewrite Hlen. repeat step.
  rewrite bind_run.
  change (IntPrompt.ask _ _ (stdin_left (ask_runner s stdin)))
    with (ask_gpu s n_gpus stdin).
  rewrite Hask3, Hsel3. repeat step.
  rewrite Hlower1. repeat step. rewrite Hlower3. repeat step.
  unfold finish, with_progress, selection_trace, runner_trace, len_of, items_of.
  rewrite Hlen, Hiter2. repeat step.
  rewrite <- !app_assoc. reflexivity.
Qed.


(** Events that can come before the request for the GPUs. *)
Definition before_fetch (e : event) : bool :=
  match e with
  | FileOpen _ | HttpPost _ _ _ => false
  | HttpGet url => Str.eqb url leaderboards_url
  | _ => true
  end.

(** Events that are no request to the server and no access to the file. *)
Definition no_request (e : event) : bool :=
  match e with
  | FileOpen _ | HttpPost _ _ _ | HttpGet _ => false
  | _ => true
  end.

(** The run did not return: it raised or left with status 1. *)
Definition stopped {A} (r : run A) : Prop :=
  (exists e, outcome_of r = Raise e) \/ outcome_of r = SysExit 1%Z.

Ltac stop_now :=
  rewrite ?bind_lift_inl, ?after_after; cbn [after outcome_of trace];
  split; [first [left; eexists; reflexivity | right; reflexivity] | trace_ok].

Ltac stop_fetch H :=
  right; left; eexists (Selection _ _ _ _ _ JNull 0 JNull [] []), _;
  split; [apply H|];
  rewrite ?bind_lift_inl, ?after_after; cbn [after outcome_of trace];
  split; [first [left; eexists; reflexivity | right; reflexivity]|];
  split;
  [ unfold runner_trace, ask_runner, ask_leaderboard;
    cbn [leaderboard_names selected_leaderboard selected_runner];
    rewrite <- ?app_assoc; cbn [app]; reflexivity
  | trace_ok ].

Lemma body_cases (filepath : str) (stdin : list str) :
  let r := body filepath stdin in
  (stopped r /\ Forall (fun e => before_fetch e = true) (trace r))
  \/ (exists s t, chooses_runner filepath stdin s /\ stopped r
                  /\ trace r = runner_trace s stdin ++ t
                  /\ Forall (fun e => no_request e = true) t)
  \/ (exists s, selects filepath stdin s).
Proof.
  intros r; subst r. unfold _submit_body.
  destruct (path_exists w filepath) eqn:Hexists; cbn [negb].
  2: { left. rewrite bind_assoc_run, bind_print, bind_sys_exit. stop_now. }
  rewrite bind_ret. unfold with_progress. repeat step.
  rewrite bind_fetch_leaderboards, bind_run. unfold fetch_run.
  destruct (http_get w leaderboards_url) as [e|resp1] eqn:Hget1.
  { left. stop_now. }
  destruct (status_code resp1 =? 200)%Z eqn:Hstatus1.
  2: { left. stop_now. }
  apply Z.eqb_eq in Hstatus1.
  destruct (json_result resp1) as [e|lbs] eqn:Hjson1.
  { left. stop_now. }
  cbn [outcome_of stdin_left trace].
  destruct (py_iter lbs) as [e|items] eqn:Hiter1.
  { left. stop_now. }
  repeat step.
  destruct (map_result py_getitem_name items) as [e|names] eqn:Hnames.
  { left. stop_now. }
  repeat step. rewrite bind_run.
  destruct (ask_outcome leaderboard_prompt
              (choices_upto (Z.of_nat (length names))) stdin)
    as [[i1 Hask1]|[e Hask1]];
    fold leaderboard_prompt; rewrite Hask1.
  2: { left. stop_now. }
  destruct (list_getitem names (i1 - 1)) as [e|lb] eqn:Hsel1.
  { left. stop_now. }
  repeat step. rewrite bind_run.
  set (in1 := stdin_left (IntPrompt.ask leaderboard_prompt _ stdin)).
  destruct (ask_outcome runner_prompt [u "1"; u "2"] in1)
    as [[i2 Hask2]|[e Hask2]];
    fold runner_prompt; rewrite Hask2.
  2: { left. stop_now. }
  destruct (list_getitem runners (i2 - 1)) as [e|runner] eqn:Hsel2.
  { left. stop_now. }
  repeat step.
  rewrite bind_fetch_gpus, bind_run. unfold fetch_run.
  set (in2 := stdin_left (IntPrompt.ask runner_prompt _ in1)).
  assert (Hrunner : forall g i3 gpu lbl gpul,
             chooses_runner filepath stdin
               (Selection names i1 lb i2 runner g i3 gpu lbl gpul)).
  { intros. econstructor; eauto. }
  destruct (http_get w (gpus_url (format lb) runner)) as [e|resp2] eqn:Hget2.
  { stop_fetch Hrunner. }
  destruct (status_code resp2 =? 200)%Z eqn:Hstatus2.
  2: { stop_fetch Hrunner. }
  apply Z.eqb_eq in Hstatus2.
  destruct (json_result resp2) as [e|gpus0] eqn:Hjson2.
  { stop_fetch Hrunner. }
  cbn [outcome_of stdin_left trace]. repeat step.
  destruct (py_iter gpus0) as [e|gpu_items] eqn:Hiter2.
  { stop_fetch Hrunner. }
  repeat step.
  destruct (py_len gpus0) as [e|n_gpus] eqn:Hlen.
  { stop_fetch Hrunner. }
  repeat step. rewrite bind_run.
  destruct (ask_outcome gpu_prompt (choices_upto n_gpus) in2)
    as [[i3 Hask3]|[e Hask3]];
    fold gpu_prompt; rewrite Hask3.
  2: { stop_fetch Hrunner. }
  destruct (py_getitem_int gpus0 (i3 - 1)) as [e|gpu] eqn:Hsel3.
  { stop_fetch Hrunner. }
  repeat step.
  destruct (py_lower lb) as [e|lbl] eqn:Hlower1.
  { stop_fetch Hrunner. }
  repeat step.
  destruct (py_lower gpu) as [e|gpul] eqn:Hlower3.
  { stop_fetch Hrunner. }
  right; right. exists (Selection names i1 lb i2 runner gpus0 i3 gpu lbl gpul).
  econstructor; eauto.
Qed.

End Selection.


(* ================================================================== *)
(** * The whole run *)

Section Flow.

Variable str_lower : str -> str.
Variable py_str : json -> str.
Variable w : World.

Local Abbreviation body := (_submit_body str_lower py_str w).
Local Abbreviation submit := (_submit str_lower py_str w).

(** The events of [report]. *)
Definition report_events (result : json) : list event :=
  match result with
  | JNull => [Print (u "[red]Failed to submit solution[/red]")]
  | _ => [Print (Str.nl ++ u "[bold blue]Result:[/bold blue]");
          Print (Json.dumps result);
          Print (u "[green]Solution submitted successfully![/green]")]
  end.

Lemma report_run (result : json) (i : list str) :
  report result i = Run (Return tt) i (report_events result).
Proof. destruct result; reflexivity. Qed.

(** Lines 127 to 145, by what [submit_solution] does. *)
Definition finish_run (filepath leaderboard runner gpu : str) (i : list str)
  : run unit :=
  let r := submit_run w leaderboard runner gpu filepath i in
  match outcome_of r with
  | Return result =>
      Run (Return tt) i
          (ProgressTask (u "Submitting solution...") :: trace r
             ++ report_events result)
  | Raise e => Run (Raise e) i (ProgressTask (u "Submitting solution...") :: trace r)
  | SysExit c => Run (SysExit c) i (ProgressTask (u "Submitting solution...") :: trace r)
  end.

Lemma submit_run_stdin (filepath leaderboard runner gpu : str) (i : list str) :
  stdin_left (submit_run w leaderboard runner gpu filepath i) = i.
Proof.
  unfold submit_run. destruct (text_of w filepath); [reflexivity|]. cbv zeta.
  destruct (http_post w _ _) as [|resp]; [reflexivity|].
  destruct (status_code resp =? 200)%Z; [|reflexivity].
  destruct (json_result resp); reflexivity.
Qed.

Lemma finish_is_finish_run (filepath leaderboard runner gpu : str) (i : list str) :
  finish w filepath leaderboard runner gpu i
  = finish_run filepath leaderboard runner gpu i.
Proof.
  unfold finish, finish_run, with_progress.
  rewrite bind_assoc_run, bind_emit, bind_run, submit_solution_run.
  pose proof (submit_run_stdin filepath leaderboard runner gpu i) as Hi.
  destruct (submit_run w leaderboard runner gpu filepath i) as [[v|e|c] i' t];
    cbn [outcome_of stdin_left trace] in *; subst i'; try reflexivity.
  rewrite report_run. reflexivity.
Qed.

(** The message of the handler at line 148. *)
Definition error_message (e : exn) : str :=
  Str.nl ++ u "[red]Error: " ++ exn_msg e ++ u "[/red]".

(** [_submit] is its [try] block, except that a raised exception is
    reported and turned into [sys.exit(1)]. *)
Lemma submit_of_body (filepath : str) (i : list str) :
  submit filepath i =
  let r := body filepath i in
  match outcome_of r with
  | Raise e => Run (SysExit 1) (stdin_left r) (trace r ++ [Print (error_message e)])
  | _ => r
  end.
Proof. reflexivity. Qed.

Lemma submit_selects (filepath : str) (stdin : list str) (s : selection) :
  selects str_lower py_str w filepath stdin s ->
  body filepath stdin
  = after (selection_trace py_str s stdin)
      (finish_run filepath (leaderboard_lower s) (str_lower (selected_runner s))
         (gpu_lower s) (stdin_left (ask_gpu s (len_of (gpus s)) stdin))).
Proof. intros H. rewrite <- finish_is_finish_run. now apply selects_run. Qed.

End Flow.


(* ================================================================== *)
(** * Failures before the submission *)

Section EarlyFailures.

Variable str_lower : str -> str.
Variable py_str : json -> str.
Variable w : World.

Local Abbreviation body := (_submit_body str_lower py_str w).
Local Abbreviation submit := (_submit str_lower py_str w).

Definition not_found_message (filepath : str) : str :=
  u "[red]Error: File '" ++ filepath ++ u "' not found[/red]".

(** C5: if the input file path does not exist, the process exits with
    status 1 and its only event is the message that the file was not found:
    no HTTP request of any kind is made. *)
Theorem missing_file_no_http (filepath : str) (stdin : list str) :
  path_exists w filepath = false ->
  let r := submit filepath stdin in
  exit_status (outcome_of r) = 1%Z
  /\ trace r = [Print (not_found_message filepath)]
  /\ Forall (fun e => is_http e = false) (trace r).
Proof.
  intros H r. subst r. rewrite submit_of_body. unfold _submit_body.
  rewrite H. cbn [negb].
  rewrite bind_assoc_run, bind_print, bind_sys_exit.
  cbn. repeat split. repeat constructor.
Qed.

(** The events of a failed fetch of the leaderboards. *)
Definition failed_fetch_trace : list event :=
  [ProgressTask (u "Fetching available leaderboards...");
   ClientOpen; HttpGet leaderboards_url;
   Print (u "[red]Failed to fetch leaderboards[/red]"); ClientClose].

(** C3: if [GET /leaderboards] returns a status other than 200, the
    process exits with status 1 after the failure message; the request for
    the leaderboards is the only HTTP request of the run, so neither the
    GPU fetch nor the submission is issued. *)
Theorem leaderboards_failure_stops (filepath : str) (stdin : list str)
    (resp : response) :
  path_exists w filepath = true ->
  http_get w leaderboards_url = inr resp ->
  status_code resp <> 200%Z ->
  let r := submit filepath stdin in
  exit_status (outcome_of r) = 1%Z
  /\ trace r = failed_fetch_trace
  /\ Forall (fun e => is_post e = false
                      /\ (is_get e = true -> e = HttpGet leaderboards_url))
       (trace r).
Proof.
  intros Hexists Hget Hstatus r. subst r.
  rewrite submit_of_body. unfold _submit_body.
  rewrite Hexists. cbn [negb]. rewrite bind_ret.
  unfold with_progress. repeat step.
  rewrite bind_fetch_leaderboards, bind_run. unfold fetch_run.
  rewrite Hget. apply Z.eqb_neq in Hstatus. rewrite Hstatus.
  cbn. repeat split; repeat constructor; discriminate.
Qed.

(** The events of a run whose leaderboards cannot be named. *)
Definition unnamed_trace (e : exn) : list event :=
  [ProgressTask (u "Fetching available leaderboards...");
   ClientOpen; HttpGet leaderboards_url; ClientClose;
   Print (error_message e)].

(** An element without a ["name"] makes the comprehension raise. *)
Lemma map_result_name_fails (xs : list json) (d : list (str * json)) :
  In (JDict d) xs -> assoc (u "name") d = None ->
  exists e, map_result py_getitem_name xs = inl e.
Proof.
  intros Hin Hd. induction xs as [|x xs IH]; [destruct Hin|].
  cbn [map_result].
  destruct (py_getitem_name x) as [e|y] eqn:Hx; [eauto|].
  destruct Hin as [->|Hin].
  - cbn [py_getitem_name] in Hx. rewrite Hd in Hx. discriminate.
  - destruct (IH Hin) as [e He]. rewrite He. eauto.
Qed.

(** C10: the names are taken from every element of the leaderboards
    response before any menu is displayed: if an element of the array has
    no ["name"], the comprehension raises, the process prints the error and
    exits with status 1; it displays no menu, prompts for nothing, and makes
    no request but the one for the leaderboards. *)
Theorem nameless_leaderboard_stops (filepath : str) (stdin : list str)
    (resp : response) (xs : list json) (d : list (str * json)) :
  path_exists w filepath = true ->
  http_get w leaderboards_url = inr resp ->
  status_code resp = 200%Z ->
  json_result resp = inr (JList xs) ->
  In (JDict d) xs -> assoc (u "name") d = None ->
  let r := submit filepath stdin in
  exists e,
    map_result py_getitem_name xs = inl e
    /\ exit_status (outcome_of r) = 1%Z
    /\ trace r = unnamed_trace e
    /\ stdin_left r = stdin
    /\ Forall (fun ev => is_prompt ev = false /\ is_post ev = false
                        /\ (is_get ev = true -> ev = HttpGet leaderboards_url))
         (trace r).
Proof.
  intros Hexists Hget Hstatus Hjson Hin Hd r. subst r.
  destruct (map_result_name_fails xs d Hin Hd) as [e He]. exists e.
  rewrite submit_of_body. unfold _submit_body.
  rewrite Hexists. cbn [negb]. rewrite bind_ret.
  unfold with_progress. repeat step.
  rewrite bind_fetch_leaderboards, bind_run. unfold fetch_run.
  rewrite Hget, Hstatus, Hjson. cbn [Z.eqb Pos.eqb outcome_of stdin_left trace py_iter].
  repeat step. rewrite He, bind_lift_inl.
  cbn. repeat split; repeat constructor; discriminate.
Qed.

End EarlyFailures.


(* ================================================================== *)
(** * The submission step *)

(** Opening the file and posting it: the events of [submit_solution]. *)
Definition submission_event (e : event) : bool :=
  match e with
  | FileOpen _ | HttpPost _ _ _ => true
  | _ => false
  end.

Section Submission.

Variable str_lower : str -> str.
Variable py_str : json -> str.
Variable w : World.

Local Abbreviation body := (_submit_body str_lower py_str w).
Local Abbreviation submit := (_submit str_lower py_str w).
Local Abbreviation selects := (selects str_lower py_str w).

Lemma runner_trace_early (s : selection) (stdin : list str) :
  Forall (fun e => submission_event e = false) (runner_trace py_str s stdin).
Proof. unfold runner_trace. trace_ok. Qed.

Lemma selection_trace_early (s : selection) (stdin : list str) :
  Forall (fun e => submission_event e = false) (selection_trace py_str s stdin).
Proof. unfold selection_trace, runner_trace. trace_ok. Qed.

Lemma Forall_weaken (P Q : event -> Prop) (l : list event) :
  (forall e, P e -> Q e) -> Forall P l -> Forall Q l.
Proof. intros H HP. induction HP; constructor; auto. Qed.

(** The trace of [_submit] is that of the [try] block, with the error
    message after it when the block raised. *)
Lemma submit_trace (filepath : str) (stdin : list str) :
  trace (submit filepath stdin) = trace (body filepath stdin)
  \/ exists e, outcome_of (body filepath stdin) = Raise e
               /\ trace (submit filepath stdin)
                  = trace (body filepath stdin) ++ [Print (error_message e)].
Proof.
  rewrite submit_of_body. cbv zeta.
  destruct (outcome_of (body filepath stdin)) eqn:H; eauto.
Qed.

Lemma submission_event_in_body (filepath : str) (stdin : list str) (ev : event) :
  submission_event ev = true ->
  In ev (trace (submit filepath stdin)) -> In ev (trace (body filepath stdin)).
Proof.
  intros Hev Hin. destruct (submit_trace filepath stdin) as [H|[e [_ H]]];
    rewrite H in Hin; [assumption|].
  apply in_app_or in Hin. destruct Hin as [Hin|[<-|[]]]; [assumption|discriminate].
Qed.

(** A run opens the file or posts it only once the selections are made. *)
Lemma reaches_submission (filepath : str) (stdin : list str) (ev : event) :
  submission_event ev = true ->
  In ev (trace (submit filepath stdin)) ->
  exists s, selects filepath stdin s.
Proof.
  intros Hev Hin. apply submission_event_in_body in Hin; [|assumption].
  destruct (body_cases str_lower py_str w filepath stdin)
    as [[_ H]|[(s & t & _ & _ & Ht & H)|H]]; [| |assumption]; exfalso.
  - rewrite Forall_forall in H. specialize (H ev Hin).
    destruct ev; discriminate.
  - rewrite Ht in Hin. apply in_app_or in Hin. destruct Hin as [Hin|Hin].
    + pose proof (runner_trace_early s stdin) as HF.
      rewrite Forall_forall in HF. rewrite (HF ev Hin) in Hev. discriminate.
    + rewrite Forall_forall in H. specialize (H ev Hin).
      destruct ev; discriminate.
Qed.

(** The [files] argument of the POST. *)
Definition files_of (filepath content : str) : files :=
  [(u "file", (Text.basename filepath, content))].

(** The URL of the POST for the selections [s]. *)
Definition target (s : selection) : str :=
  submit_url (leaderboard_lower s) (str_lower (selected_runner s)) (gpu_lower s).

(** The events of the submission step when the file cannot be read. *)
Definition unread_trace (filepath : str) : list event :=
  [ProgressTask (u "Submitting solution..."); FileOpen filepath].

(** The events up to the POST when it can. *)
Definition post_trace (s : selection) (filepath content : str) : list event :=
  [ProgressTask (u "Submitting solution..."); FileOpen filepath; ClientOpen;
   HttpPost (target s) (files_of filepath content) 600].

(** What follows the POST, by the answer of the server. *)
Definition answer_run (s : selection) (filepath content : str) (i : list str)
  : run unit :=
  match http_post w (target s) (files_of filepath content) with
  | inl e => Run (Raise e) i [ClientClose]
  | inr resp =>
      if (status_code resp =? 200)%Z then
        match json_result resp with
        | inl e => Run (Raise e) i [ClientClose]
        | inr v => Run (Return tt) i (ClientClose :: report_events v)
        end
      else
        Run (Return tt) i
            [Print (u "[red]Failed to submit solution[/red]"); ClientClose;
             Print (u "[red]Failed to submit solution[/red]")]
  end.

Definition stdin_after (s : selection) (stdin : list str) : list str :=
  stdin_left (ask_gpu s (len_of (gpus s)) stdin).

Lemma body_unread (filepath : str) (stdin : list str) (s : selection) (e : exn) :
  selects filepath stdin s -> text_of w filepath = inl e ->
  body filepath stdin
  = Run (Raise e) (stdin_after s stdin)
        (selection_trace py_str s stdin ++ unread_trace filepath).
Proof.
  intros Hs He. rewrite (submit_selects Hs).
  unfold finish_run, submit_run. rewrite He. reflexivity.
Qed.

Lemma body_posts (filepath : str) (stdin : list str) (s : selection) (content : str) :
  selects filepath stdin s -> text_of w filepath = inr content ->
  body filepath stdin
  = after (selection_trace py_str s stdin ++ post_trace s filepath content)
      (answer_run s filepath content (stdin_after s stdin)).
Proof.
  intros Hs Hc. rewrite (submit_selects Hs).
  unfold finish_run, submit_run, answer_run, target, files_of, post_trace, after.
  rewrite Hc. cbv zeta.
  destruct (http_post w _ _) as [e|resp]; cbn [outcome_of stdin_left trace];
    [now rewrite <- app_assoc|].
  destruct (status_code resp =? 200)%Z; cbn [outcome_of stdin_left trace];
    [|now rewrite <- app_assoc].
  destruct (json_result resp); cbn [outcome_of stdin_left trace];
    now rewrite <- app_assoc.
Qed.

End Submission.


Section SubmissionClaims.

Variable str_lower : str -> str.
Variable py_str : json -> str.
Variable w : World.

Local Abbreviation body := (_submit_body str_lower py_str w).
Local Abbreviation submit := (_submit str_lower py_str w).
Local Abbreviation selects := (selects str_lower py_str w).
Local Abbreviation tgt := (target str_lower).
Local Abbreviation answer := (answer_run str_lower w).
Local Abbreviation posted := (post_trace str_lower).

Lemma answer_run_no_post (s : selection) (filepath content : str) (i : list str) :
  Forall (fun e => submission_event e = false)
    (trace (answer s filepath content i)).
Proof.
  unfold answer_run.
  destruct (http_post w _ _) as [e|resp]; [repeat constructor|].
  destruct (status_code resp =? 200)%Z; [|repeat constructor].
  destruct (json_result resp) as [e|v]; [repeat constructor|].
  destruct v; repeat constructor.
Qed.

Lemma not_In_early (l : list event) (ev : event) :
  Forall (fun e => submission_event e = false) l ->
  submission_event ev = true -> ~ In ev l.
Proof.
  intros HF Hev Hin. rewrite Forall_forall in HF.
  rewrite (HF ev Hin) in Hev. discriminate.
Qed.

(** A POST in the trace is the one of line 48, made after the selections
    and the reading of the file. *)
Lemma post_inversion (filepath : str) (stdin : list str)
    (url : str) (f : files) (t : Z) :
  In (HttpPost url f t) (trace (submit filepath stdin)) ->
  exists s content,
    selects filepath stdin s /\ text_of w filepath = inr content
    /\ url = tgt s /\ f = files_of filepath content /\ t = 600%Z.
Proof.
  intros Hin.
  destruct (@reaches_submission str_lower py_str w filepath stdin
              (HttpPost url f t) eq_refl Hin) as [s Hs].
  apply submission_event_in_body in Hin; [|reflexivity].
  exists s. destruct (text_of w filepath) as [e|content] eqn:Htext.
  - exfalso. rewrite (body_unread Hs Htext) in Hin. cbn [trace] in Hin.
    apply in_app_or in Hin. destruct Hin as [Hin|Hin].
    + exact (not_In_early (HttpPost url f t) (selection_trace_early py_str s stdin) eq_refl Hin).
    + destruct Hin as [H|[H|[]]]; discriminate.
  - exists content. rewrite (body_posts Hs Htext) in Hin.
    unfold after in Hin. cbn [trace] in Hin.
    apply in_app_or in Hin. destruct Hin as [Hin|Hin].
    + apply in_app_or in Hin. destruct Hin as [Hin|Hin].
      * exfalso.
        exact (not_In_early (HttpPost url f t) (selection_trace_early py_str s stdin) eq_refl Hin).
      * destruct Hin as [H|[H|[H|[H|[]]]]]; try discriminate.
        injection H as <- <- <-. auto.
    + exfalso. exact (not_In_early (HttpPost url f t) (answer_run_no_post _ _ _ _) eq_refl Hin).
Qed.

Definition submit_failed_message : str := u "[red]Failed to submit solution[/red]".

(** The run exits with status 0 only after an answer to the POST. *)
Lemma in_body_in_submit (filepath : str) (stdin : list str) (ev : event) :
  In ev (trace (body filepath stdin)) -> In ev (trace (submit filepath stdin)).
Proof.
  intros Hin. destruct (submit_trace str_lower py_str w filepath stdin)
    as [H|[e [_ H]]]; rewrite H; [assumption|].
  apply in_or_app. now left.
Qed.





(** C9: [submit_solution] opens and reads the file before it creates the
    HTTP client: in a run that gets to open the file, if opening or reading
    fails with [e], the exception leaves the [try] block, the run ends with
    the opening of the file and the message of the handler, the exit status
    is 1, and no POST is issued nor any client created after the file was
    opened. *)
Theorem unreadable_file_no_post (filepath : str) (stdin : list str) (e : exn) :
  In (FileOpen filepath) (trace (submit filepath stdin)) ->
  text_of w filepath = inl e ->
  let r := submit filepath stdin in
  outcome_of (body filepath stdin) = Raise e
  /\ exit_status (outcome_of r) = 1%Z
  /\ (exists pre,
        trace r = pre ++ [FileOpen filepath; Print (error_message e)]
        /\ Forall (fun ev => submission_event ev = false) pre)
  /\ Forall (fun ev => is_post ev = false) (trace r).
Proof.
  intros Hin Htext r. subst r.
  destruct (@reaches_submission str_lower py_str w filepath stdin
              (FileOpen filepath) eq_refl Hin) as [s Hs].
  rewrite submit_of_body, (body_unread Hs Htext). cbv zeta.
  cbn [outcome_of trace stdin_left]. unfold unread_trace.
  assert (Hpre : Forall (fun ev => submission_event ev = false)
                   (selection_trace py_str s stdin
                    ++ [ProgressTask (u "Submitting solution...")])).
  { apply Forall_app. split; [apply selection_trace_early|repeat constructor]. }
  repeat split.
  - eexists. split; [|exact Hpre]. rewrite <- !app_assoc. reflexivity.
  - replace ((selection_trace py_str s stdin
              ++ [ProgressTask (u "Submitting solution..."); FileOpen filepath])
             ++ [Print (error_message e)])
      with ((selection_trace py_str s stdin
             ++ [ProgressTask (u "Submitting solution...")])
            ++ [FileOpen filepath; Print (error_message e)])
      by (rewrite <- !app_assoc; reflexivity).
    apply Forall_app. split; [|repeat constructor].
    eapply Forall_weaken; [|exact Hpre].
    intros ev Hev. destruct ev; try reflexivity; discriminate.
Qed.

End SubmissionClaims.


(* ================================================================== *)
(** * The prompt accepts the numbers of the menu and nothing else *)

Module StrFacts.

Lemma eqb_eq (a b : str) : Str.eqb a b = true <-> a = b.
Proof.
  revert b. induction a as [|x a IH]; intros [|y b]; cbn; try easy.
  rewrite andb_true_iff, N.eqb_eq, IH. split.
  - now intros [-> ->].
  - intros H; injection H; auto.
Qed.

Lemma eqb_refl (a : str) : Str.eqb a a = true.
Proof. now apply eqb_eq. Qed.

Lemma mem_In (s : str) (l : list str) : Str.mem s l = true <-> In s l.
Proof.
  induction l as [|x l IH]; cbn; [easy|].
  rewrite orb_true_iff, eqb_eq, IH. intuition.
Qed.

(** A string that does not begin with a space. *)
Definition clean (s : str) : Prop :=
  match s with
  | [] => True
  | c :: _ => Str.is_space c = false
  end.

Lemma lstrip_clean (s : str) : clean (Str.lstrip s).
Proof.
  induction s as [|c s IH]; cbn; [exact I|].
  destruct (Str.is_space c) eqn:H; [exact IH|exact H].
Qed.

Lemma lstrip_id (s : str) : clean s -> Str.lstrip s = s.
Proof. destruct s as [|c s]; cbn; [easy|]. now intros ->. Qed.

(** [lstrip] drops a prefix. *)
Lemma lstrip_suffix (s : str) : exists p, s = p ++ Str.lstrip s.
Proof.
  induction s as [|c s [p IH]]; cbn; [now exists []|].
  destruct (Str.is_space c).
  - exists (c :: p). cbn. now f_equal.
  - now exists [].
Qed.

Lemma strip_clean (s : str) : clean (Str.strip s) /\ clean (rev (Str.strip s)).
Proof.
  unfold Str.strip. rewrite rev_involutive.
  split; [|apply lstrip_clean].
  pose proof (lstrip_clean s) as Ha.
  destruct (lstrip_suffix (rev (Str.lstrip s))) as [p Hp].
  set (b := Str.lstrip (rev (Str.lstrip s))) in *.
  assert (Hrev : Str.lstrip s = rev b ++ rev p).
  { rewrite <- rev_app_distr, <- Hp. now rewrite rev_involutive. }
  destruct (rev b) as [|c r] eqn:Hb; [exact I|].
  rewrite Hrev in Ha. exact Ha.
Qed.

Lemma strip_idempotent (s : str) : Str.strip (Str.strip s) = Str.strip s.
Proof.
  destruct (strip_clean s) as [H1 H2].
  unfold Str.strip at 1. rewrite (lstrip_id _ H1), (lstrip_id _ H2).
  apply rev_involutive.
Qed.

Lemma uint_chars_digits (d : Decimal.uint) :
  d <> Decimal.Nil -> Str.int_digits false (Str.uint_chars d) = Some d.
Proof.
  assert (H : forall d b, Str.int_digits b (Str.uint_chars d)
                          = match d with
                            | Decimal.Nil => if b then Some Decimal.Nil else None
                            | _ => Some d
                            end).
  { clear d. induction d as [|d IH|d IH|d IH|d IH|d IH|d IH|d IH|d IH|d IH|d IH];
      intros b; cbn [Str.uint_chars Str.int_digits]; [reflexivity|..];
      cbn; rewrite IH; destruct d; reflexivity. }
  intros Hd. rewrite H. destruct d; congruence.
Qed.

Lemma to_uint_nonnil (p : positive) : Pos.to_uint p <> Decimal.Nil.
Proof.
  intros H. pose proof (DecimalPos.Unsigned.to_uint_nonnil p) as H'. contradiction.
Qed.

(** [int(s)] on what strips to the decimal writing of a positive number. *)
Lemma to_Z_of_Z (s : str) (k : Z) :
  (0 < k)%Z -> Str.strip s = Str.of_Z k -> Str.to_Z s = Some k.
Proof.
  intros Hk Hs. unfold Str.to_Z. rewrite Hs.
  destruct k as [|p|p]; try lia. cbn [Str.of_Z].
  pose proof (uint_chars_digits (to_uint_nonnil p)) as Hd.
  assert (Hv : N.of_uint (Pos.to_uint p) = Npos p).
  { exact (DecimalN.Unsigned.of_to (Npos p)). }
  destruct (Pos.to_uint p) as [|d|d|d|d|d|d|d|d|d|d] eqn:Hp;
    [now destruct (to_uint_nonnil p)|..];
    cbn [Str.uint_chars] in *; rewrite Hd; cbn [option_map]; rewrite Hv;
    reflexivity.
Qed.

End StrFacts.

Module PromptFacts.

Import StrFacts.

Lemma choices_upto_In (n : Z) (s : str) :
  In s (choices_upto n) <-> exists k, (1 <= k <= n)%Z /\ s = Str.of_Z k.
Proof.
  unfold choices_upto. rewrite in_map_iff. split.
  - intros (i & <- & Hi). apply in_seq in Hi. exists (Z.of_nat i). split; [lia|easy].
  - intros (k & Hk & ->). exists (Z.to_nat k). split.
    + f_equal. lia.
    + apply in_seq. lia.
Qed.

(** The prompt accepts a line exactly when it strips to the decimal writing
    of a number of the menu, and then returns that number. *)
Lemma process_response_inr (n : Z) (line : str) (i : Z) :
  IntPrompt.process_response (choices_upto n) line = inr i
  <-> (1 <= i <= n)%Z /\ Str.strip line = Str.of_Z i.
Proof.
  unfold IntPrompt.process_response. rewrite strip_idempotent. split.
  - destruct (Str.to_Z (Str.strip line)) as [m|] eqn:Hm; [|discriminate].
    destruct (Str.mem (Str.strip line) (choices_upto n)) eqn:Hmem; [|discriminate].
    intros H; injection H as ->.
    apply mem_In, choices_upto_In in Hmem. destruct Hmem as (k & Hk & Hs).
    assert (Hk' : Str.to_Z (Str.strip line) = Some k).
    { apply to_Z_of_Z; [lia|]. now rewrite strip_idempotent. }
    rewrite Hm in Hk'. injection Hk' as ->. auto.
  - intros [Hi Hs].
    rewrite (@to_Z_of_Z (Str.strip line) i); [|lia|now rewrite strip_idempotent].
    assert (Hmem : Str.mem (Str.strip line) (choices_upto n) = true).
    { apply mem_In, choices_upto_In. eauto. }
    now rewrite Hmem.
Qed.




Lemma ask_range (prompt : str) (n : Z) (stdin : list str) (i : Z) :
  outcome_of (IntPrompt.ask prompt (choices_upto n) stdin) = Return i ->
  (1 <= i <= n)%Z.
Proof.
  induction stdin as [|line stdin IH]; cbn [IntPrompt.ask]; [discriminate|].
  destruct (IntPrompt.process_response (choices_upto n) line) as [msg|k] eqn:Hp;
    cbn [outcome_of]; [exact IH|].
  intros H; injection H as ->. now apply process_response_inr in Hp.
Qed.

Lemma list_getitem_nth {A} (l : list A) (i : Z) (x : A) :
  (1 <= i <= Z.of_nat (length l))%Z ->
  list_getitem l (i - 1) = inr x -> nth_error l (Z.to_nat (i - 1)) = Some x.
Proof.
  intros Hi. unfold list_getitem.
  destruct (i - 1 <? 0)%Z eqn:H0; [lia|].
  destruct ((i - 1 <? 0) || (Z.of_nat (length l) <=? i - 1))%Z; [discriminate|].
  destruct (nth_error l (Z.to_nat (i - 1))); [|discriminate].
  now intros H; injection H as ->.
Qed.


End PromptFacts.

Section MenuClaims.

Variable str_lower : str -> str.
Variable py_str : json -> str.
Variable w : World.

Local Abbreviation chooses_runner := (chooses_runner w).
Local Abbreviation selects := (selects str_lower py_str w).

Import PromptFacts.

(** The first two selections lie in the range of their menus. *)
Lemma runner_in_range (filepath : str) (stdin : list str) (s : selection) :
  chooses_runner filepath stdin s ->
  (1 <= leaderboard_idx s <= Z.of_nat (length (leaderboard_names s)))%Z
  /\ nth_error (leaderboard_names s) (Z.to_nat (leaderboard_idx s - 1))
     = Some (selected_leaderboard s)
  /\ (1 <= runner_idx s <= 2)%Z
  /\ nth_error runners (Z.to_nat (runner_idx s - 1)) = Some (selected_runner s).
Proof.
  intros [].
  apply ask_range in Hask1.
  unfold ask_runner in Hask2.
  change [u "1"; u "2"] with (choices_upto 2) in Hask2.
  apply ask_range in Hask2.
  repeat split; try lia.
  - now apply list_getitem_nth.
  - apply list_getitem_nth; [cbn; lia|assumption].
Qed.

(** So does the third. *)
Lemma gpu_in_range (filepath : str) (stdin : list str) (s : selection) :
  selects filepath stdin s ->
  (1 <= gpu_idx s <= Z.of_nat (length (items_of (gpus s))))%Z
  /\ nth_error (items_of (gpus s)) (Z.to_nat (gpu_idx s - 1))
     = Some (selected_gpu s).
Proof.
  intros [? ? ? _].
  apply ask_range in Hask3.
  destruct (gpus s) as [| | |t|l|d]; try discriminate.
  - cbn in Hlen. injection Hlen as <-.
    cbn [py_getitem_int] in Hsel3.
    destruct (list_getitem t (gpu_idx s - 1)) as [e|c] eqn:Hc; [discriminate|].
    injection Hsel3 as <-.
    unfold items_of. cbn [py_iter]. rewrite length_map, nth_error_map.
    split; [lia|]. now rewrite (list_getitem_nth _ Hask3 Hc).
  - cbn in Hlen. injection Hlen as <-.
    unfold items_of. cbn [py_iter py_getitem_int] in *.
    split; [lia|]. now apply list_getitem_nth.
Qed.


End MenuClaims.


(* ================================================================== *)
(** * The requests of a run *)



Section Requests.

Variable str_lower : str -> str.
Variable py_str : json -> str.
Variable w : World.

Local Abbreviation body := (_submit_body str_lower py_str w).
Local Abbreviation submit := (_submit str_lower py_str w).
Local Abbreviation chooses_runner := (chooses_runner w).
Local Abbreviation selects := (selects str_lower py_str w).
Local Abbreviation fmt := (format py_str).

(** The URL of the GPU fetch for the selections [s]. *)
Definition gpus_url_of (s : selection) : str :=
  gpus_url (fmt (selected_leaderboard s)) (selected_runner s).






Lemma py_lower_inr (v : json) (x : str) :
  py_lower str_lower v = inr x -> exists name, v = JStr name /\ x = str_lower name.
Proof.
  destruct v; cbn; try discriminate. intros H; injection H as <-. eauto.
Qed.

(** The path of the POST, from the selected names. *)
Definition lowered_url (leaderboard runner gpu : str) : str :=
  BASE_URL ++ u "/" ++ str_lower leaderboard ++ u "/" ++ str_lower runner
    ++ u "/" ++ str_lower gpu.

(** In a run that makes its selections, the selected leaderboard and GPU
    are strings, and the POST goes to their lower-cased path. *)
Lemma target_lowered (filepath : str) (stdin : list str) (s : selection) :
  selects filepath stdin s ->
  exists leaderboard gpu,
    selected_leaderboard s = JStr leaderboard
    /\ selected_gpu s = JStr gpu
    /\ target str_lower s = lowered_url leaderboard (selected_runner s) gpu
    /\ gpus_url_of s = gpus_url leaderboard (selected_runner s).
Proof.
  intros [? ? ? _].
  destruct (py_lower_inr _ Hlower1) as (lb & Hlb & Hl1).
  destruct (py_lower_inr _ Hlower3) as (gpu & Hgpu & Hl3).
  exists lb, gpu. unfold target, lowered_url, submit_url, gpus_url_of.
  rewrite Hl1, Hl3, Hlb. auto.
Qed.


End Requests.


(* ================================================================== *)
(** * UTF-8: encoding what was decoded *)

Module Utf8Facts.

Ltac arith :=
  repeat match goal with
         | H : (_ && _) = true |- _ => apply andb_true_iff in H; destruct H
         | H : (_ || _) = true |- _ => apply orb_true_iff in H
         | H : negb _ = true |- _ => apply negb_true_iff in H
         | H : (_ <=? _)%N = true |- _ => apply N.leb_le in H
         | H : (_ <=? _)%N = false |- _ => apply N.leb_gt in H
         | H : (_ <? _)%N = true |- _ => apply N.ltb_lt in H
         | H : (_ <? _)%N = false |- _ => apply N.ltb_ge in H
         | H : (_ =? _)%N = true |- _ => apply N.eqb_eq in H
         | H : (_ =? _)%N = false |- _ => apply N.eqb_neq in H
         end.

Lemma div_mod_unique (a q r d : N) :
  (a = q * d + r -> r < d -> a / d = q /\ a mod d = r)%N.
Proof.
  intros -> Hr. split.
  - symmetry. apply N.div_unique with r; lia.
  - symmetry. apply N.mod_unique with q; lia.
Qed.

Lemma encode_two (b1 b2 : N) :
  (194 <= b1 <= 223 -> 128 <= b2 <= 191 ->
   let c := (b1 - 192) * 64 + (b2 - 128) in
   128 <= c < 2048 /\ 192 + c / 64 = b1 /\ 128 + c mod 64 = b2)%N.
Proof.
  intros H1 H2 c.
  destruct (@div_mod_unique c (b1 - 192) (b2 - 128) 64)%N as [-> ->];
    subst c; lia.
Qed.

Lemma encode_three (b1 b2 b3 : N) :
  (224 <= b1 <= 239 -> 128 <= b2 <= 191 -> 128 <= b3 <= 191 ->
   (b1 = 224 -> 160 <= b2) -> (b1 = 237 -> b2 <= 159) ->
   let c := ((b1 - 224) * 64 + (b2 - 128)) * 64 + (b3 - 128) in
   2048 <= c < 65536 /\ (c < 55296 \/ 57343 < c)
   /\ 224 + c / 4096 = b1 /\ 128 + (c / 64) mod 64 = b2 /\ 128 + c mod 64 = b3)%N.
Proof.
  intros H1 H2 H3 Ha Hb c.
  destruct (@div_mod_unique c ((b1 - 224) * 64 + (b2 - 128)) (b3 - 128) 64)%N
    as [Hq ->]; [subst c; lia..|].
  destruct (@div_mod_unique c (b1 - 224) ((b2 - 128) * 64 + (b3 - 128)) 4096)%N
    as [-> _]; [subst c; lia..|].
  rewrite Hq.
  destruct (@div_mod_unique ((b1 - 224) * 64 + (b2 - 128)) (b1 - 224) (b2 - 128) 64)%N
    as [_ ->]; [lia..|].
  subst c. lia.
Qed.

Lemma encode_four (b1 b2 b3 b4 : N) :
  (240 <= b1 <= 244 -> 128 <= b2 <= 191 -> 128 <= b3 <= 191 -> 128 <= b4 <= 191 ->
   (b1 = 240 -> 144 <= b2) -> (b1 = 244 -> b2 <= 143) ->
   let c := (((b1 - 240) * 64 + (b2 - 128)) * 64 + (b3 - 128)) * 64 + (b4 - 128) in
   65536 <= c < 1114112
   /\ 240 + c / 262144 = b1 /\ 128 + (c / 4096) mod 64 = b2
   /\ 128 + (c / 64) mod 64 = b3 /\ 128 + c mod 64 = b4)%N.
Proof.
  intros H1 H2 H3 H4 Ha Hb c.
  set (x := ((b1 - 240) * 64 + (b2 - 128))%N).
  set (y := (x * 64 + (b3 - 128))%N).
  destruct (@div_mod_unique c y (b4 - 128) 64)%N as [Hq1 ->]; [subst c y x; lia..|].
  destruct (@div_mod_unique c x ((b3 - 128) * 64 + (b4 - 128)) 4096)%N
    as [Hq2 _]; [subst c y x; lia..|].
  destruct (@div_mod_unique c (b1 - 240)
              (((b2 - 128) * 64 + (b3 - 128)) * 64 + (b4 - 128)) 262144)%N
    as [-> _]; [subst c y x; lia..|].
  rewrite Hq1, Hq2.
  destruct (@div_mod_unique y x (b3 - 128) 64)%N as [_ ->]; [subst y; lia..|].
  destruct (@div_mod_unique x (b1 - 240) (b2 - 128) 64)%N as [_ ->]; [subst x; lia..|].
  subst c y x. lia.
Qed.

Lemma char_one (c : N) : (c < 128)%N -> Text.utf8_char c = Some [c].
Proof. intros H. unfold Text.utf8_char. apply N.ltb_lt in H. now rewrite H. Qed.

Lemma char_two (b1 b2 : N) :
  (194 <= b1 <= 223)%N -> (128 <= b2 <= 191)%N ->
  Text.utf8_char ((b1 - 192) * 64 + (b2 - 128)) = Some [b1; b2].
Proof.
  intros H1 H2. destruct (encode_two H1 H2) as (Hc & E1 & E2).
  unfold Text.utf8_char. rewrite E1, E2.
  destruct (N.ltb_spec ((b1 - 192) * 64 + (b2 - 128)) 128); [lia|].
  destruct (N.ltb_spec ((b1 - 192) * 64 + (b2 - 128)) 2048); [reflexivity|lia].
Qed.

Lemma char_three (b1 b2 b3 : N) :
  (224 <= b1 <= 239)%N -> (128 <= b2 <= 191)%N -> (128 <= b3 <= 191)%N ->
  (b1 = 224 -> 160 <= b2)%N -> (b1 = 237 -> b2 <= 159)%N ->
  Text.utf8_char (((b1 - 224) * 64 + (b2 - 128)) * 64 + (b3 - 128))
  = Some [b1; b2; b3].
Proof.
  intros H1 H2 H3 Ha Hb.
  destruct (encode_three H1 H2 H3 Ha Hb) as (Hc & Hs & E1 & E2 & E3).
  unfold Text.utf8_char, Text.is_surrogate. rewrite E1, E2, E3.
  set (c := (((b1 - 224) * 64 + (b2 - 128)) * 64 + (b3 - 128))%N) in *.
  destruct (N.ltb_spec c 128); [lia|].
  destruct (N.ltb_spec c 2048); [lia|].
  destruct (N.leb_spec 55296 c), (N.leb_spec c 57343); cbn [andb]; try lia;
    destruct (N.ltb_spec c 65536); try lia; reflexivity.
Qed.

Lemma char_four (b1 b2 b3 b4 : N) :
  (240 <= b1 <= 244)%N -> (128 <= b2 <= 191)%N -> (128 <= b3 <= 191)%N ->
  (128 <= b4 <= 191)%N ->
  (b1 = 240 -> 144 <= b2)%N -> (b1 = 244 -> b2 <= 143)%N ->
  Text.utf8_char ((((b1 - 240) * 64 + (b2 - 128)) * 64 + (b3 - 128)) * 64
                  + (b4 - 128))
  = Some [b1; b2; b3; b4].
Proof.
  intros H1 H2 H3 H4 Ha Hb.
  destruct (encode_four H1 H2 H3 H4 Ha Hb) as (Hc & E1 & E2 & E3 & E4).
  unfold Text.utf8_char, Text.is_surrogate. rewrite E1, E2, E3, E4.
  set (c := ((((b1 - 240) * 64 + (b2 - 128)) * 64 + (b3 - 128)) * 64
             + (b4 - 128))%N) in *.
  destruct (N.ltb_spec c 128); [lia|].
  destruct (N.ltb_spec c 2048); [lia|].
  destruct (N.leb_spec 55296 c), (N.leb_spec c 57343); cbn [andb]; try lia;
    destruct (N.ltb_spec c 65536); try lia;
    destruct (N.ltb_spec c 1114112); try lia; reflexivity.
Qed.

Lemma cont_range (b : N) : Text.cont b = true -> (128 <= b <= 191)%N.
Proof. unfold Text.cont. intros H. arith. lia. Qed.

(** Encoding what the strict decoder returned gives the bytes back. *)
Lemma encode_decode (n : nat) :
  forall bs s, (length bs <= n)%nat ->
               Text.utf8_decode bs = Some s -> Text.utf8_encode s = Some bs.
Proof.
  induction n as [|n IH]; intros bs s Hn.
  { destruct bs; [|cbn in Hn; lia]. cbn. now intros H; injection H as <-. }
  destruct bs as [|b1 r1]; [cbn; now intros H; injection H as <-|].
  cbn [Text.utf8_decode length] in *.
  destruct (b1 <? 128)%N eqn:E1.
  { destruct (Text.utf8_decode r1) as [s'|] eqn:Hd; [|discriminate].
    cbn [option_map]. intros H; injection H as <-. arith.
    cbn [Text.utf8_encode]. rewrite (char_one E1), (IH r1 s'); [reflexivity|lia|easy]. }
  destruct ((194 <=? b1) && (b1 <=? 223))%N eqn:E2.
  { destruct r1 as [|b2 r2]; [discriminate|].
    destruct (Text.cont b2) eqn:C2; [|discriminate].
    destruct (Text.utf8_decode r2) as [s'|] eqn:Hd; [|discriminate].
    cbn [option_map]. intros H; injection H as <-.
    apply cont_range in C2. arith.
    cbn [Text.utf8_encode length] in *.
    rewrite char_two, (IH r2 s'); [reflexivity|lia|easy|lia|lia]. }
  destruct ((224 <=? b1) && (b1 <=? 239))%N eqn:E3.
  { destruct r1 as [|b2 [|b3 r3]]; [discriminate..|].
    destruct (Text.cont b2 && Text.cont b3
              && (negb (b1 =? 224) || (160 <=? b2))%N
              && (negb (b1 =? 237) || (b2 <=? 159))%N) eqn:C; [|discriminate].
    destruct (Text.utf8_decode r3) as [s'|] eqn:Hd; [|discriminate].
    cbn [option_map]. intros H; injection H as <-.
    apply andb_true_iff in C. destruct C as [C C4].
    apply andb_true_iff in C. destruct C as [C C3].
    apply andb_true_iff in C. destruct C as [C1 C2].
    apply cont_range in C1, C2.
    assert (Ha : (b1 = 224 -> 160 <= b2)%N).
    { intros ->. arith. destruct C3 as [C3|C3]; arith; [congruence|lia]. }
    assert (Hb : (b1 = 237 -> b2 <= 159)%N).
    { intros ->. arith. destruct C4 as [C4|C4]; arith; [congruence|lia]. }
    arith. cbn [Text.utf8_encode length] in *.
    rewrite char_three, (IH r3 s'); [reflexivity|lia|easy|lia..]. }
  destruct ((240 <=? b1) && (b1 <=? 244))%N eqn:E4; [|discriminate].
  destruct r1 as [|b2 [|b3 [|b4 r4]]]; [discriminate..|].
  destruct (Text.cont b2 && Text.cont b3 && Text.cont b4
            && (negb (b1 =? 240) || (144 <=? b2))%N
            && (negb (b1 =? 244) || (b2 <=? 143))%N) eqn:C; [|discriminate].
  destruct (Text.utf8_decode r4) as [s'|] eqn:Hd; [|discriminate].
  cbn [option_map]. intros H; injection H as <-.
  apply andb_true_iff in C. destruct C as [C C5].
  apply andb_true_iff in C. destruct C as [C C4].
  apply andb_true_iff in C. destruct C as [C C3].
  apply andb_true_iff in C. destruct C as [C1 C2].
  apply cont_range in C1, C2, C3.
  assert (Ha : (b1 = 240 -> 144 <= b2)%N).
  { intros ->. arith. destruct C4 as [C4|C4]; arith; [congruence|lia]. }
  assert (Hb : (b1 = 244 -> b2 <= 143)%N).
  { intros ->. arith. destruct C5 as [C5|C5]; arith; [congruence|lia]. }
  arith. cbn [Text.utf8_encode length] in *.
  rewrite char_four, (IH r4 s'); [reflexivity|lia|easy|lia..].
Qed.

Lemma universal_newlines_id (s : str) :
  ~ In 13%N s -> Text.universal_newlines s = s.
Proof.
  induction s as [|c s IH]; [reflexivity|]. intros H.
  cbn [Text.universal_newlines].
  destruct (N.eqb_spec c 13) as [->|_]; [destruct H; now left|].
  rewrite IH; [reflexivity|]. intros H'. apply H. now right.
Qed.

Lemma encode_keeps_ascii (s : str) (bs : list N) (c : N) :
  Text.utf8_encode s = Some bs -> (c < 128)%N -> In c s -> In c bs.
Proof.
  revert bs. induction s as [|x s IH]; intros bs He Hc Hin; [destruct Hin|].
  cbn [Text.utf8_encode] in He.
  destruct (Text.utf8_char x) as [b|] eqn:Hx; [|discriminate].
  destruct (Text.utf8_encode s) as [bs'|]; [|discriminate].
  injection He as <-. apply in_or_app. destruct Hin as [->|Hin].
  - left. rewrite (char_one Hc) in Hx. injection Hx as <-. now left.
  - right. now apply IH.
Qed.

(** A file of valid UTF-8 without carriage return is read into a text
    whose encoding is the file, byte for byte. *)
Lemma read_text_exact (bs : list byte) (content : str) :
  Text.read_text bs = inr content -> ~ In 13%N (map Byte.to_N bs) ->
  Text.utf8_encode content = Some (map Byte.to_N bs).
Proof.
  unfold Text.read_text.
  destruct (Text.utf8_decode (map Byte.to_N bs)) as [s|] eqn:Hd; [|discriminate].
  intros H Hcr. injection H as <-.
  pose proof (@encode_decode _ _ _ (le_n _) Hd) as He.
  rewrite universal_newlines_id; [assumption|].
  intros Hin. apply Hcr. now apply (encode_keeps_ascii s He).
Qed.

End Utf8Facts.


Section SubmissionRequest.

Variable str_lower : str -> str.
Variable py_str : json -> str.
Variable w : World.

Local Abbreviation submit := (_submit str_lower py_str w).
Local Abbreviation selects := (selects str_lower py_str w).

(** C1, as amended: in a run that makes its selections (each within the
    displayed range, the selected leaderboard and GPU being strings) on a
    file that can be read as text, the one POST of the run goes to the
    lower-cased path [/{leaderboard}/{runner}/{gpu}] with the field ["file"]
    carrying the base name of the path and the text of the file: its bytes
    decoded, with every [\r\n] and [\r] read as [\n].  That text encodes to
    the exact bytes of the file when the file holds no carriage return. *)
Theorem submission_request (filepath : str) (stdin : list str) (s : selection)
    (content : str) :
  selects filepath stdin s ->
  text_of w filepath = inr content ->
  exists leaderboard gpu bytes tail,
    nth_error (leaderboard_names s) (Z.to_nat (leaderboard_idx s - 1))
    = Some (JStr leaderboard)
    /\ nth_error runners (Z.to_nat (runner_idx s - 1)) = Some (selected_runner s)
    /\ nth_error (items_of (gpus s)) (Z.to_nat (gpu_idx s - 1)) = Some (JStr gpu)
    /\ trace (submit filepath stdin)
       = selection_trace py_str s stdin
         ++ [ProgressTask (u "Submitting solution..."); FileOpen filepath;
             ClientOpen;
             HttpPost (lowered_url str_lower leaderboard (selected_runner s) gpu)
               [(u "file", (Text.basename filepath, content))] 600]
         ++ tail
    /\ Forall (fun e => is_post e = false) (selection_trace py_str s stdin ++ tail)
    /\ file_bytes w filepath = inr bytes
    /\ Text.read_text bytes = inr content
    /\ (~ In 13%N (map Byte.to_N bytes) ->
        Text.utf8_encode content = Some (map Byte.to_N bytes)).
Proof.
  intros Hs Htext.
  destruct (target_lowered Hs) as (lb & gpu & Hlb & Hgpu & Htarget & _).
  assert (Hr : chooses_runner w filepath stdin s) by now destruct Hs.
  destruct (runner_in_range Hr) as (_ & Hn1 & _ & Hn2).
  destruct (gpu_in_range Hs) as (_ & Hn3).
  rewrite Hlb in Hn1. rewrite Hgpu in Hn3.
  assert (Hfile : exists bytes, file_bytes w filepath = inr bytes
                                /\ Text.read_text bytes = inr content).
  { unfold text_of in Htext. destruct (file_bytes w filepath) as [e|bytes];
      [discriminate|eauto]. }
  destruct Hfile as (bytes & Hbytes & Hread).
  assert (Hbody := body_posts Hs Htext).
  assert (Htrace : exists tail,
             trace (submit filepath stdin)
             = selection_trace py_str s stdin
               ++ post_trace str_lower s filepath content ++ tail
             /\ Forall (fun e => is_post e = false) tail).
  { assert (Hno : Forall (fun e => is_post e = false)
                     (trace (answer_run str_lower w s filepath content
                               (stdin_after s stdin)))).
    { eapply Forall_weaken; [|apply answer_run_no_post].
      intros e He. destruct e; try reflexivity; discriminate. }
    destruct (submit_trace str_lower py_str w filepath stdin) as [H|[e [_ H]]];
      rewrite H, Hbody; unfold after; cbn [trace]; rewrite <- ?app_assoc;
      eexists; (split; [reflexivity|]); [exact Hno|].
    apply Forall_app. split; [exact Hno|repeat constructor]. }
  destruct Htrace as (tail & Htrace & Htail).
  exists lb, gpu, bytes, tail. repeat (split; [assumption|]).
  split; [|split].
  - rewrite Htrace. unfold post_trace, files_of. rewrite Htarget. reflexivity.
  - apply Forall_app. split; [|assumption].
    eapply Forall_weaken; [|apply selection_trace_early].
    intros e He. destruct e; try reflexivity; discriminate.
  - repeat (split; [assumption|]). now apply Utf8Facts.read_text_exact.
Qed.

End SubmissionRequest.


(* ================================================================== *)
(** * json.loads reads back what json.dumps wrote: strings *)

Module JsonStrings.

Import Json.
















End JsonStrings.


(* ================================================================== *)
(** * json.loads reads back what json.dumps wrote: values *)

Module JsonValues.

Import Json JsonStrings.




Section Induction.

Variable P : json -> Prop.
Hypothesis HNull : P JNull.
Hypothesis HBool : forall b, P (JBool b).
Hypothesis HInt : forall z, P (JInt z).
Hypothesis HStr : forall s, P (JStr s).
Hypothesis HList : forall l, Forall P l -> P (JList l).
Hypothesis HDict : forall d, Forall (fun kv => P (snd kv)) d -> P (JDict d).


End Induction.

(** What may follow a value in the text: nothing, a comma or a newline. *)
Definition delimited (rest : str) : Prop :=
  match rest with
  | [] => True
  | c :: _ => c = 44%N \/ c = 10%N
  end.












(** The parts after the first, each behind the separator, then [e]. *)
Fixpoint sep_each (sep : str) (parts : list str) (e : str) : str :=
  match parts with
  | [] => e
  | p :: ps => sep ++ p ++ sep_each sep ps e
  end.








Lemma eqb_sym (a b : str) : Str.eqb a b = Str.eqb b a.
Proof.
  destruct (Str.eqb a b) eqn:H.
  - apply StrFacts.eqb_eq in H. subst. symmetry. apply StrFacts.eqb_refl.
  - destruct (Str.eqb b a) eqn:H'; [|reflexivity].
    apply StrFacts.eqb_eq in H'. subst. now rewrite StrFacts.eqb_refl in H.
Qed.




Definition item_sep (level : nat) : str := 44%N :: newline_indent level.




Lemma delimited_sep_each (level level' : nat) (parts : list str) (c : N) (rest : str) :
  delimited (sep_each (item_sep level) parts (newline_indent level' ++ c :: rest)).
Proof. destruct parts; cbn; auto. Qed.




End JsonValues.


Module JsonRoundTrip.

Import Json JsonStrings JsonValues.








(** What is read instead. *)
Lemma surrogates_read_as :
  loads (dumps (JStr [55357; 56832]%N)) = Some (JStr [128512%N]).
Proof. vm_compute. reflexivity. Qed.

(** An answer of the server, with nesting, escapes and a character above
    the basic plane. *)
Definition answer : json :=
  JDict [(u "leaderboard", JStr (u "Conv2D"));
         (u "scores", JList [JInt 42; JInt (-7); JInt 0; JList []; JDict []]);
         (u "note", JStr (u "tab" ++ [9; 34; 233; 128512; 55357]%N));
         (u "passed", JBool true);
         (u "error", JNull)].


End JsonRoundTrip.


(* ================================================================== *)
(** * A server, a file and a user *)

Module Example.

(** [str.lower] on ASCII text. *)
Definition lower_ascii (s : str) : str :=
  map (fun c => if ((65 <=? c) && (c <=? 90))%N then (c + 32)%N else c) s.

(** [str(v)] for [None], [bool] and [int]; the examples format nothing
    else. *)
Definition str_of_atom (v : json) : str :=
  match v with
  | JNull => u "None"
  | JBool true => u "True"
  | JBool false => u "False"
  | JInt z => Str.of_Z z
  | JStr s => s
  | _ => []
  end.

Definition path : str := u "kernels/solution.py".

Definition source : list byte := list_byte_of_string "x = 1" ++ [x0a].

(** The same line with a Windows line ending. *)
Definition source_crlf : list byte := list_byte_of_string "x = 1" ++ [x0d; x0a].

Definition leaderboards_body : json :=
  JList [JDict [(u "name", JStr (u "MatMul"))];
         JDict [(u "name", JStr (u "Conv2D"))]].

Definition nameless_body : json :=
  JList [JDict [(u "name", JStr (u "MatMul"))];
         JDict [(u "title", JStr (u "Conv2D"))]].

Definition gpus_body : json := JList [JStr (u "A100"); JStr (u "H100")].

Definition ok (v : json) : result response := inr (Response 200 (inr v)).

Definition no_such_file : exn :=
  Exn OSError (u "[Errno 2] No such file or directory").

(** The scenario of the specification: two leaderboards, two GPUs. *)
Definition server : World := {|
  path_exists := fun p => Str.eqb p path;
  file_bytes := fun p => if Str.eqb p path then inr source else inl no_such_file;
  http_get := fun url =>
    if Str.eqb url leaderboards_url then ok leaderboards_body
    else if Str.eqb url (gpus_url (u "Conv2D") (u "modal")) then ok gpus_body
    else inr (Response 404 (inr JNull));
  http_post := fun _ _ => ok (JDict [(u "score", JInt 42)])
|}.

(** Variations of it. *)
Definition with_get (get : str -> result response) (w : World) : World :=
  {| path_exists := path_exists w; file_bytes := file_bytes w;
     http_get := get; http_post := http_post w |}.

Definition with_post (post : str -> files -> result response) (w : World) : World :=
  {| path_exists := path_exists w; file_bytes := file_bytes w;
     http_get := http_get w; http_post := post |}.

Definition with_file (bytes : str -> result (list byte)) (w : World) : World :=
  {| path_exists := path_exists w; file_bytes := bytes;
     http_get := http_get w; http_post := http_post w |}.

Definition unavailable : World :=
  with_get (fun _ => inr (Response 503 (inr JNull))) server.


Definition nameless : World := with_get (fun _ => ok nameless_body) server.

Definition rejecting : World :=
  with_post (fun _ _ => inr (Response 422 (inr JNull))) server.

(** The file is removed between the check at line 71 and line 42. *)
Definition vanishing : World := with_file (fun _ => inl no_such_file) server.

Definition crlf : World := with_file (fun _ => inr source_crlf) server.

(** The user selects Conv2D, modal and H100. *)
Definition typed : list str := [u "2"; u "1"; u "2"].

Definition chosen : selection :=
  Selection [JStr (u "MatMul"); JStr (u "Conv2D")] 2 (JStr (u "Conv2D"))
    1 (u "modal") gpus_body 2 (JStr (u "H100")) (u "conv2d") (u "h100").

Definition target_url : str := u "http://localhost:8000/conv2d/modal/h100".

Ltac selects_chosen :=
  econstructor; [econstructor|..]; reflexivity.

Lemma server_selects : selects lower_ascii str_of_atom server path typed chosen.
Proof. selects_chosen. Qed.

Lemma rejecting_selects : selects lower_ascii str_of_atom rejecting path typed chosen.
Proof. selects_chosen. Qed.

Lemma vanishing_selects : selects lower_ascii str_of_atom vanishing path typed chosen.
Proof. selects_chosen. Qed.

Lemma crlf_selects : selects lower_ascii str_of_atom crlf path typed chosen.
Proof. selects_chosen. Qed.

Ltac in_trace := vm_compute; repeat first [left; reflexivity | right].

End Example.


(* ================================================================== *)
(** * The properties on the example *)

Module ExampleRuns.

Import Example.

Local Abbreviation run_on := (_submit lower_ascii str_of_atom).

(** No file: status 1 and no request. *)
Lemma missing_file_no_http_witness :
  exit_status (outcome_of (run_on server (u "nowhere.py") typed)) = 1%Z
  /\ Forall (fun e => is_http e = false) (trace (run_on server (u "nowhere.py") typed)).
Proof.
  destruct (@missing_file_no_http lower_ascii str_of_atom server
              (u "nowhere.py") typed eq_refl) as (H1 & _ & H2).
  exact (conj H1 H2).
Defined.

(** The leaderboards answer 503. *)
Lemma leaderboards_failure_stops_witness :
  exit_status (outcome_of (run_on unavailable path typed)) = 1%Z
  /\ trace (run_on unavailable path typed) = failed_fetch_trace.
Proof.
  destruct (@leaderboards_failure_stops lower_ascii str_of_atom unavailable
              path typed (Response 503 (inr JNull)) eq_refl eq_refl)
    as (H1 & H2 & _); [discriminate|].
  exact (conj H1 H2).
Defined.

(** The second leaderboard has a title and no name. *)
Lemma nameless_leaderboard_stops_witness :
  exists e,
    exit_status (outcome_of (run_on nameless path typed)) = 1%Z
    /\ trace (run_on nameless path typed) = unnamed_trace e.
Proof.
  destruct (@nameless_leaderboard_stops lower_ascii str_of_atom nameless
              path typed (Response 200 (inr nameless_body))
              [JDict [(u "name", JStr (u "MatMul"))];
               JDict [(u "title", JStr (u "Conv2D"))]]
              [(u "title", JStr (u "Conv2D"))]
              eq_refl eq_refl eq_refl eq_refl)
    as (e & _ & H1 & H2 & _).
  - right; left; reflexivity.
  - reflexivity.
  - exists e. exact (conj H1 H2).
Defined.



(** The file is gone when it is to be read. *)
Lemma unreadable_file_no_post_witness :
  exit_status (outcome_of (run_on vanishing path typed)) = 1%Z
  /\ Forall (fun ev => is_post ev = false) (trace (run_on vanishing path typed)).
Proof.
  destruct (@unreadable_file_no_post lower_ascii str_of_atom vanishing
              path typed no_such_file)
    as (_ & H1 & _ & H2).
  - in_trace.
  - reflexivity.
  - exact (conj H1 H2).
Defined.

(** Conv2D, modal and H100 are posted as [/conv2d/modal/h100]. *)
Lemma submission_request_witness :
  exists tail,
    trace (run_on server path typed)
    = selection_trace str_of_atom chosen typed
      ++ [ProgressTask (u "Submitting solution..."); FileOpen path; ClientOpen;
          HttpPost target_url [(u "file", (u "solution.py", u "x = 1" ++ Str.nl))] 600]
      ++ tail.
Proof.
  destruct (@submission_request lower_ascii str_of_atom server path typed chosen
              (u "x = 1" ++ Str.nl) server_selects eq_refl)
    as (lb & gpu & bytes & tail & H1 & _ & H3 & H4 & _).
  injection H1 as <-. injection H3 as <-.
  exists tail. exact H4.
Defined.



(** The claim C1 as it is stated: the field carries the bytes of the file. *)
Definition posts_exact_bytes (w : World) (filepath : str) (stdin : list str) : Prop :=
  forall url name content t bytes,
    In (HttpPost url [(u "file", (name, content))] t)
       (trace (run_on w filepath stdin)) ->
    file_bytes w filepath = inr bytes ->
    name = Text.basename filepath
    /\ Text.utf8_encode content = Some (map Byte.to_N bytes).

(** A file with a Windows line ending is not posted byte for byte: the
    carriage return is dropped by the reading in text mode. *)
Lemma crlf_not_exact : ~ posts_exact_bytes crlf path typed.
Proof.
  intros H.
  destruct (H target_url (u "solution.py") (u "x = 1" ++ Str.nl) 600%Z source_crlf)
    as [_ Hbytes].
  - in_trace.
  - reflexivity.
  - vm_compute in Hbytes. discriminate.
Qed.

End ExampleRuns.


(* ================================================================== *)
(** * Traces that follow an automaton *)

(** The remaining properties hold of every run, however it ends.  They
    are stated with an automaton that reads the trace, and proved along
    the structure of the program: each construct of the monad has its
    rule. *)

Section TraceLogic.

Variable state : Type.
Variable advance : state -> event -> option state.

Fixpoint follow (st : state) (l : list event) : option state :=
  match l with
  | [] => Some st
  | e :: l' =>
      match advance st e with
      | Some st' => follow st' l'
      | None => None
      end
  end.

Lemma follow_app (st : state) (a b : list event) :
  follow st (a ++ b)
  = match follow st a with Some st' => follow st' b | None => None end.
Proof.
  revert st. induction a as [|e a IH]; intros st; cbn [app follow]; [reflexivity|].
  destruct (advance st e); [apply IH|reflexivity].
Qed.

(** From [st] every event of [m] is allowed; the events lead to a state
    of [Q a] when [m] returns [a], and into [R] when it raises or exits. *)
Definition walks {A} (m : M A) (st : state) (Q : A -> state -> Prop)
    (R : state -> Prop) : Prop :=
  forall i, exists st',
    follow st (trace (m i)) = Some st'
    /\ match outcome_of (m i) with
       | Return a => Q a st'
       | _ => R st'
       end.

(** The postcondition of a computation that leads to [st1] whatever it
    returns. *)
Definition reaching {A} (st1 : state) : A -> state -> Prop :=
  fun _ st' => st' = st1.

Lemma walks_ret {A} (a : A) (st : state) (Q : A -> state -> Prop)
    (R : state -> Prop) :
  Q a st -> walks (ret a) st Q R.
Proof. intros H i. exists st. split; [reflexivity|exact H]. Qed.

Lemma walks_sys_exit {A} (c : Z) (st : state) (Q : A -> state -> Prop)
    (R : state -> Prop) :
  R st -> walks (sys_exit c) st Q R.
Proof. intros H i. exists st. split; [reflexivity|exact H]. Qed.

Lemma walks_lift {A} (r : result A) (st : state) (Q : A -> state -> Prop)
    (R : state -> Prop) :
  R st -> (forall a, r = inr a -> Q a st) -> walks (lift r) st Q R.
Proof.
  intros HR HQ i. exists st. destruct r; (split; [reflexivity|]); cbn; auto.
Qed.

Lemma walks_emit (e : event) (st st1 : state) (Q : unit -> state -> Prop)
    (R : state -> Prop) :
  advance st e = Some st1 -> Q tt st1 -> walks (emit e) st Q R.
Proof. intros H HQ i. exists st1. cbn. rewrite H. auto. Qed.

Lemma walks_print (text : str) (st st1 : state) (Q : unit -> state -> Prop)
    (R : state -> Prop) :
  advance st (Print text) = Some st1 -> Q tt st1 ->
  walks (console_print text) st Q R.
Proof. apply walks_emit. Qed.

Lemma walks_bind {A B} (m : M A) (k : A -> M B) (st : state)
    (Q : A -> state -> Prop) (Q' : B -> state -> Prop) (R : state -> Prop) :
  walks m st Q R -> (forall a st1, Q a st1 -> walks (k a) st1 Q' R) ->
  walks (bind m k) st Q' R.
Proof.
  intros Hm Hk i. destruct (Hm i) as (s1 & Hf & Ho). unfold bind.
  destruct (outcome_of (m i)) as [a|e|c]; cbn [trace outcome_of]; eauto.
  destruct (Hk a s1 Ho (stdin_left (m i))) as (s2 & Hf2 & Ho2).
  exists s2. rewrite follow_app, Hf. auto.
Qed.

(** Leaving a [with] block adds its event on every way out. *)
Lemma walks_finally {A} (m : M A) (e : event) (st : state)
    (Q' Q : A -> state -> Prop) (R' R : state -> Prop) :
  walks m st Q' R' ->
  (forall a s, Q' a s -> exists s', advance s e = Some s' /\ Q a s') ->
  (forall s, R' s -> exists s', advance s e = Some s' /\ R s') ->
  walks (finally m e) st Q R.
Proof.
  intros Hm HQ HR i. destruct (Hm i) as (s1 & Hf & Ho). unfold finally.
  cbn [trace outcome_of]. rewrite follow_app, Hf. cbn [follow].
  destruct (outcome_of (m i)) as [a|x|c].
  - destruct (HQ a s1 Ho) as (s' & -> & Hs'). eauto.
  - destruct (HR s1 Ho) as (s' & -> & Hs'). eauto.
  - destruct (HR s1 Ho) as (s' & -> & Hs'). eauto.
Qed.

(** An exception is handled where it was raised; [SystemExit] passes. *)
Lemma walks_try_except {A} (m : M A) (h : exn -> M A) (st : state)
    (Q : A -> state -> Prop) (R : state -> Prop) :
  walks m st Q R ->
  (forall e s, R s -> walks (h e) s Q R) ->
  walks (try_except m h) st Q R.
Proof.
  intros Hm Hh i. destruct (Hm i) as (s1 & Hf & Ho). unfold try_except.
  destruct (outcome_of (m i)) as [a|e|c] eqn:Hout; try rewrite Hout; eauto.
  destruct (Hh e s1 Ho (stdin_left (m i))) as (s2 & Hf2 & Ho2).
  exists s2. cbn [trace outcome_of]. rewrite follow_app, Hf. auto.
Qed.

Lemma walks_menu (items : list str) (st : state) (Q : unit -> state -> Prop)
    (R : state -> Prop) :
  (forall idx x, advance st (Print (Str.of_Z idx ++ u ". " ++ x)) = Some st) ->
  Q tt st ->
  forall idx, walks (print_menu idx items) st Q R.
Proof.
  intros H HQ idx i. rewrite print_menu_run. exists st. split; [|exact HQ].
  cbn [trace]. revert idx. induction items as [|x items IH]; intros idx;
    cbn [menu_events follow]; [reflexivity|].
  rewrite H. apply IH.
Qed.

(** A prompt stays where it is: each round is a [Prompt], and a rejected
    line is answered with one of the two messages. *)
Lemma walks_ask (prompt : str) (choices : list str) (st : state)
    (Q : Z -> state -> Prop) (R : state -> Prop) :
  advance st (Prompt prompt choices) = Some st ->
  advance st (Print IntPrompt.validate_error_message) = Some st ->
  advance st (Print IntPrompt.illegal_choice_message) = Some st ->
  R st -> (forall n, Q n st) ->
  walks (IntPrompt.ask prompt choices) st Q R.
Proof.
  intros Hp Hv Hc HR HQ i. exists st.
  induction i as [|line i IH]; cbn [IntPrompt.ask].
  - cbn [trace outcome_of follow]. rewrite Hp. auto.
  - unfold IntPrompt.process_response.
    destruct (Str.to_Z (Str.strip line)) as [n|].
    + destruct (Str.mem _ choices); cbn [trace outcome_of follow]; rewrite Hp; auto.
      rewrite Hc. exact IH.
    + cbn [trace outcome_of follow]. rewrite Hp, Hv. exact IH.
Qed.

End TraceLogic.

(** One step of a walk: the rule of the construct at hand.  What comes
    first in a sequence leads to one state; the side conditions are closed
    by computation or with the hints of [walk]. *)
Create HintDb walk.

Ltac walk_side :=
  intros; first [reflexivity | exact I | solve [eauto with walk nocore]].

Ltac walk_step :=
  first
    [ apply walks_ret; walk_side
    | apply walks_lift; walk_side
    | apply walks_sys_exit; walk_side
    | eapply walks_print; walk_side
    | eapply walks_emit; walk_side
    | apply walks_menu; walk_side
    | apply walks_ask; walk_side
    | eapply walks_bind with (Q := reaching _);
      [solve [repeat walk_step]|intros ? ? ->] ].

Ltac walk := repeat walk_step.


(* ================================================================== *)
(** * The order of the requests *)

(** Where a run stands: how many requests it has made, whether it has
    opened the file, and the client that is open, if there is one, with
    whether a request went through it. *)
Record stage := Stage {
  requests : nat;
  file_opened : bool;
  client : option bool
}.

Definition start : stage := Stage 0 false None.

(** The events allowed at a stage.  The requests are the one for the
    leaderboards, a second GET and a POST, in this order, each the only
    request of a client of its own; the file is opened once, between the
    second GET and the client of the POST; a prompt comes between the first
    GET and the opening of the file, with no client open. *)
Definition advance (st : stage) (e : event) : option stage :=
  match e with
  | Print _ | ProgressTask _ => Some st
  | Prompt _ _ =>
      match client st, file_opened st, requests st with
      | None, false, (1 | 2)%nat => Some st
      | _, _, _ => None
      end
  | FileOpen _ =>
      match client st, file_opened st, requests st with
      | None, false, 2%nat => Some (Stage 2 true None)
      | _, _, _ => None
      end
  | ClientOpen =>
      match client st, requests st, file_opened st with
      | None, (0 | 1)%nat, false | None, 2%nat, true =>
          Some (Stage (requests st) (file_opened st) (Some false))
      | _, _, _ => None
      end
  | ClientClose =>
      match client st with
      | Some true => Some (Stage (requests st) (file_opened st) None)
      | _ => None
      end
  | HttpGet url =>
      match client st, requests st with
      | Some false, 0%nat =>
          if Str.eqb url leaderboards_url
          then Some (Stage 1 (file_opened st) (Some true))
          else None
      | Some false, 1%nat => Some (Stage 2 (file_opened st) (Some true))
      | _, _ => None
      end
  | HttpPost _ _ _ =>
      match client st, requests st with
      | Some false, 2%nat => Some (Stage 3 (file_opened st) (Some true))
      | _, _ => None
      end
  end.

(** The trace is allowed from the start and leaves no client open. *)
Definition in_protocol (l : list event) : bool :=
  match follow advance start l with
  | Some st => match client st with None => true | Some _ => false end
  | None => false
  end.

(** The [n]-th request of a run, counting from 0. *)
Definition expected (n : nat) (e : event) : bool :=
  match n, e with
  | 0%nat, HttpGet url => Str.eqb url leaderboards_url
  | 1%nat, HttpGet _ => true
  | 2%nat, HttpPost _ _ _ => true
  | _, _ => false
  end.

Fixpoint in_order (n : nat) (l : list event) : bool :=
  match l with
  | [] => true
  | e :: l' => expected n e && in_order (S n) l'
  end.

(** No client is open. *)
Definition closed (st : stage) : Prop := client st = None.

(** A client is open and its request is made. *)
Definition used (st : stage) : Prop := client st = Some true.

Lemma advance_requests (st st' : stage) (e : event) :
  advance st e = Some st' ->
  if is_http e
  then expected (requests st) e = true /\ requests st' = S (requests st)
  else requests st' = requests st.
Proof.
  destruct st as [n o c], e; cbn; intros H;
    repeat match type of H with
           | context [match ?x with _ => _ end] => destruct x eqn:?; try discriminate
           end;
    injection H as <-; cbn; auto.
Qed.

Lemma follow_in_order (l : list event) :
  forall st st', follow advance st l = Some st' ->
  in_order (requests st) (filter is_http l) = true.
Proof.
  induction l as [|e l IH]; intros st st' H; [reflexivity|].
  cbn [follow] in H. destruct (advance st e) as [st1|] eqn:He; [|discriminate].
  apply advance_requests in He. cbn [filter].
  destruct (is_http e).
  - destruct He as [He Hn]. cbn [in_order]. rewrite He, <- Hn. cbn [andb]. eauto.
  - rewrite <- He. eauto.
Qed.

Lemma in_order_length (l : list event) :
  forall n, in_order n l = true -> (length l <= 3 - n)%nat.
Proof.
  induction l as [|e l IH]; intros n H; cbn [in_order length] in *; [lia|].
  apply andb_prop in H. destruct H as [He H]. apply IH in H.
  destruct n as [|[|[|n]]]; try lia. destruct e; discriminate.
Qed.


Section Protocol.

Variable str_lower : str -> str.
Variable py_str : json -> str.
Variable w : World.

Local Abbreviation body := (_submit_body str_lower py_str w).
Local Abbreviation submit := (_submit str_lower py_str w).

Lemma client_get_walks (url : str) (st st1 : stage) :
  advance st (HttpGet url) = Some st1 -> used st1 ->
  walks advance (client_get w url) st (reaching st1) used.
Proof.
  intros H Hu. unfold client_get.
  eapply walks_bind with (Q := reaching st1);
    [eapply walks_emit; [exact H|reflexivity]|intros _ ? ->].
  apply walks_lift; [exact Hu|reflexivity].
Qed.

(** A client block that makes its request leaves no client behind. *)
Lemma with_client_walks {A} (m : M A) (st st0 st1 : stage) :
  advance st ClientOpen = Some st0 ->
  walks advance m st0 (reaching st1) used -> used st1 ->
  walks advance (with_client m) st
    (reaching (Stage (requests st1) (file_opened st1) None)) closed.
Proof.
  intros Ho Hm Hu. unfold with_client.
  eapply walks_bind with (Q := reaching st0);
    [eapply walks_emit; [exact Ho|reflexivity]|intros _ ? ->].
  eapply walks_finally; [exact Hm| |].
  - intros a s ->. unfold advance. rewrite Hu. eexists. split; reflexivity.
  - intros s Hs. unfold advance. rewrite Hs. eexists. split; reflexivity.
Qed.

Lemma fetch_leaderboards_walks :
  walks advance (fetch_leaderboards w) start
    (reaching (Stage 1 false None)) closed.
Proof.
  unfold fetch_leaderboards.
  apply with_client_walks
    with (st0 := Stage 0 false (Some false)) (st1 := Stage 1 false (Some true));
    [reflexivity| |reflexivity].
  eapply walks_bind;
    [apply client_get_walks; reflexivity|intros response ? ->].
  destruct (negb _); walk.
Qed.

Lemma fetch_available_gpus_walks (leaderboard runner : str) :
  walks advance (fetch_available_gpus w leaderboard runner)
    (Stage 1 false None) (reaching (Stage 2 false None)) closed.
Proof.
  unfold fetch_available_gpus.
  apply with_client_walks
    with (st0 := Stage 1 false (Some false)) (st1 := Stage 2 false (Some true));
    [reflexivity| |reflexivity].
  eapply walks_bind;
    [apply client_get_walks; reflexivity|intros response ? ->].
  destruct (negb _); walk.
Qed.

Lemma submit_solution_walks (leaderboard runner gpu filepath : str) :
  walks advance (submit_solution w leaderboard runner gpu filepath)
    (Stage 2 false None) (reaching (Stage 3 true None)) closed.
Proof.
  unfold submit_solution, open_read.
  eapply walks_bind with (Q := reaching (Stage 2 true None));
    [walk|intros solution_content ? ->]. cbv zeta.
  apply with_client_walks
    with (st0 := Stage 2 true (Some false)) (st1 := Stage 3 true (Some true));
    [reflexivity| |reflexivity].
  unfold client_post.
  eapply walks_bind with (Q := reaching (Stage 3 true (Some true)));
    [walk|intros response ? ->; destruct (negb _); walk].
Qed.

(** The [try] block keeps to the protocol, and so does the handler. *)
Lemma body_walks (filepath : str) :
  walks advance (body filepath) start (reaching (Stage 3 true None)) closed.
Proof.
  unfold _submit_body, with_progress.
  eapply walks_bind with (Q := reaching start);
    [destruct (negb _); walk|intros _ ? ->].
  eapply walks_bind with (Q := reaching (Stage 1 false None)).
  { eapply walks_bind with (Q := reaching start); [walk|intros _ ? ->].
    eapply walks_bind; [apply fetch_leaderboards_walks|intros leaderboards ? ->].
    walk. }
  intros leaderboard_names ? ->. walk.
  eapply walks_bind with (Q := reaching (Stage 2 false None)).
  { eapply walks_bind with (Q := reaching (Stage 1 false None));
      [walk|intros _ ? ->].
    apply fetch_available_gpus_walks. }
  intros gpus ? ->. walk.
  eapply walks_bind with (Q := reaching (Stage 3 true None)).
  { eapply walks_bind with (Q := reaching (Stage 2 false None));
      [walk|intros _ ? ->].
    apply submit_solution_walks. }
  intros result ? ->. destruct result; walk.
Qed.

Lemma submit_walks (filepath : str) :
  walks advance (submit filepath) start (reaching (Stage 3 true None)) closed.
Proof.
  unfold _submit. apply walks_try_except; [apply body_walks|].
  intros e s Hs. eapply walks_bind with (Q := reaching s); [walk|intros _ ? ->].
  apply walks_sys_exit. exact Hs.
Qed.

(** X1: whatever the file, the server and the user do, the trace of a run
    follows the protocol of [advance] and leaves no client open: every
    request goes through a client of its own, which is closed on every way
    out of its block; the file is opened at most once, after the second GET
    and before the client of the POST; the user is only prompted between
    the fetch of the leaderboards and the opening of the file, with no
    client open. *)
Theorem runs_keep_protocol (filepath : str) (stdin : list str) :
  in_protocol (trace (submit filepath stdin)) = true.
Proof.
  destruct (submit_walks filepath stdin) as (st & Hf & Ho).
  unfold in_protocol. rewrite Hf.
  assert (Hc : client st = None).
  { destruct (outcome_of (submit filepath stdin)); [now rewrite Ho|exact Ho..]. }
  now rewrite Hc.
Qed.

(** X2: the HTTP requests of a run, in the order of the trace, are the
    first ones of: the GET for the leaderboards, a second GET, a POST.  So
    a run makes at most three requests and repeats none. *)
Theorem requests_in_order (filepath : str) (stdin : list str) :
  in_order 0 (filter is_http (trace (submit filepath stdin))) = true
  /\ (length (filter is_http (trace (submit filepath stdin))) <= 3)%nat.
Proof.
  destruct (submit_walks filepath stdin) as (st & Hf & _).
  apply follow_in_order in Hf. split; [exact Hf|].
  apply in_order_length in Hf. exact Hf.
Qed.

End Protocol.


(* ================================================================== *)
(** * What a run says of the submission *)

Definition success_message : str :=
  u "[green]Solution submitted successfully![/green]".

(** An answer to the POST with which [submit_solution] returns a result
    other than [None]: status 200 and a body that is JSON, not [null]. *)
Definition accepted (answer : result response) : bool :=
  match answer with
  | inr resp =>
      (status_code resp =? 200)%Z
      && match json_result resp with
         | inr JNull | inl _ => false
         | inr _ => true
         end
  | inl _ => false
  end.

Lemma accepted_answer (answer : result response) :
  accepted answer = true ->
  exists resp v, answer = inr resp /\ status_code resp = 200%Z
                 /\ json_result resp = inr v /\ v <> JNull.
Proof.
  destruct answer as [e|resp]; cbn [accepted]; [discriminate|].
  intros H. apply andb_prop in H. destruct H as [Hs Hj].
  apply Z.eqb_eq in Hs.
  destruct (json_result resp) as [e|v] eqn:Hv; [discriminate|].
  exists resp, v. repeat split; try assumption.
  intros ->. discriminate.
Qed.

(** The texts that the program prints before its report are not the
    message of success. *)
Lemma of_Z_modest (z : Z) (t : str) :
  Str.eqb (Str.of_Z z ++ t) success_message = false.
Proof.
  destruct z as [|p|p]; cbn [Str.of_Z]; try reflexivity.
  destruct (Pos.to_uint p) eqn:Hp; try reflexivity.
  now destruct (StrFacts.to_uint_nonnil p).
Qed.

Lemma dumps_modest (v : json) : Str.eqb (Json.dumps v) success_message = false.
Proof.
  destruct v as [|[|]|z|s|l|d]; try reflexivity.
  - unfold Json.dumps. cbn [Json.iterencode].
    rewrite <- (List.app_nil_r (Str.of_Z z)). apply of_Z_modest.
  - destruct l; reflexivity.
  - destruct d; reflexivity.
Qed.

Section Announcement.

Variable str_lower : str -> str.
Variable py_str : json -> str.
Variable w : World.

Local Abbreviation body := (_submit_body str_lower py_str w).
Local Abbreviation submit := (_submit str_lower py_str w).

(** The automaton remembers the POST that was made, and lets the message
    of success through only if the server accepted that POST. *)
Definition announce (posted : option (str * files)) (e : event)
  : option (option (str * files)) :=
  match e with
  | HttpPost url f _ => Some (Some (url, f))
  | Print text =>
      if Str.eqb text success_message
      then match posted with
           | Some (url, f) =>
               if accepted (http_post w url f) then Some posted else None
           | None => None
           end
      else Some posted
  | _ => Some posted
  end.

Definition anywhere (posted : option (str * files)) : Prop := True.

Lemma announce_modest (posted : option (str * files)) (text : str) :
  Str.eqb text success_message = false ->
  announce posted (Print text) = Some posted.
Proof. intros H. cbn [announce]. now rewrite H. Qed.

Lemma announce_menu (posted : option (str * files)) (idx : Z) (x : str) :
  announce posted (Print (Str.of_Z idx ++ u ". " ++ x)) = Some posted.
Proof. apply announce_modest, of_Z_modest. Qed.

(** The POST remembered at the end of [l] was made in [l], unless it was
    remembered before. *)
Lemma follow_posted (l : list event) (url : str) (f : files) :
  forall st, follow announce st l = Some (Some (url, f)) ->
  (exists t, In (HttpPost url f t) l) \/ st = Some (url, f).
Proof.
  induction l as [|e l IH]; intros st H; cbn [follow] in H.
  - right. now injection H.
  - destruct (announce st e) as [st1|] eqn:He; [|discriminate].
    destruct (IH st1 H) as [[t Ht] | ->]; [left; exists t; now right|].
    destruct e; cbn [announce] in He;
      try (injection He as <-; now right).
    + right. destruct (Str.eqb text success_message).
      * destruct st as [[url' f']|]; [|discriminate].
        destruct (accepted _); [|discriminate]. congruence.
      * congruence.
    + injection He as <- <-. left. exists timeout. now left.
Qed.

#[local] Hint Resolve announce_menu announce_modest dumps_modest : walk.

Lemma with_client_announce {A} (m : M A) (st : option (str * files))
    (Q : A -> option (str * files) -> Prop) :
  walks announce m st Q anywhere ->
  walks announce (with_client m) st Q anywhere.
Proof.
  intros Hm. unfold with_client.
  eapply walks_bind with (Q := reaching st); [walk|intros _ ? ->].
  eapply walks_finally; [exact Hm| |]; intros; eexists; (split; [reflexivity|]);
    first [assumption|exact I].
Qed.

Lemma fetch_leaderboards_announce (st : option (str * files)) :
  walks announce (fetch_leaderboards w) st (reaching st) anywhere.
Proof.
  unfold fetch_leaderboards, client_get. apply with_client_announce.
  eapply walks_bind with (Q := reaching st); [walk|intros response ? ->].
  destruct (negb _); walk.
Qed.

Lemma fetch_available_gpus_announce (leaderboard runner : str)
    (st : option (str * files)) :
  walks announce (fetch_available_gpus w leaderboard runner) st
    (reaching st) anywhere.
Proof.
  unfold fetch_available_gpus, client_get. apply with_client_announce.
  eapply walks_bind with (Q := reaching st); [walk|intros response ? ->].
  destruct (negb _); walk.
Qed.

(** When [submit_solution] returns a result, the server has accepted the
    POST that the automaton remembers. *)
Definition posted_result (result : json) (st : option (str * files)) : Prop :=
  exists url f,
    st = Some (url, f)
    /\ (result <> JNull -> accepted (http_post w url f) = true).

Lemma submit_solution_announce (leaderboard runner gpu filepath : str)
    (st : option (str * files)) :
  walks announce (submit_solution w leaderboard runner gpu filepath) st
    posted_result anywhere.
Proof.
  unfold submit_solution, open_read.
  eapply walks_bind with (Q := reaching st); [walk|intros solution_content ? ->].
  cbv zeta. apply with_client_announce.
  set (url := BASE_URL ++ _). set (f := [(u "file", _)]).
  eapply walks_bind
    with (Q := fun resp st' => st' = Some (url, f) /\ http_post w url f = inr resp).
  { unfold client_post.
    eapply walks_bind with (Q := reaching (Some (url, f))); [walk|intros _ ? ->].
    apply walks_lift; [exact I|auto]. }
  intros response st1 [-> Hpost].
  destruct (status_code response =? 200)%Z eqn:Hstatus; cbn [negb].
  - apply walks_lift; [exact I|]. intros v Hv. exists url, f.
    split; [reflexivity|]. intros Hnull. unfold accepted.
    rewrite Hpost, Hstatus, Hv. now destruct v.
  - eapply walks_bind with (Q := reaching (Some (url, f))); [walk|intros _ ? ->].
    apply walks_ret. exists url, f. split; [reflexivity|]. now intros [].
Qed.

Lemma body_announce (filepath : str) :
  walks announce (body filepath) None (fun _ _ => True) anywhere.
Proof.
  unfold _submit_body, with_progress.
  eapply walks_bind with (Q := reaching None);
    [destruct (negb _); walk|intros _ ? ->].
  eapply walks_bind with (Q := reaching None).
  { eapply walks_bind with (Q := reaching None); [walk|intros _ ? ->].
    eapply walks_bind;
      [apply fetch_leaderboards_announce|intros leaderboards ? ->].
    walk. }
  intros leaderboard_names ? ->. repeat walk_step.
  eapply walks_bind with (Q := reaching None).
  { eapply walks_bind with (Q := reaching None); [walk|intros _ ? ->].
    apply fetch_available_gpus_announce. }
  intros gpus ? ->. repeat walk_step.
  eapply walks_bind with (Q := posted_result).
  { eapply walks_bind with (Q := reaching None); [walk|intros _ ? ->].
    apply submit_solution_announce. }
  intros result st (url & f & -> & Hok).
  assert (Hsay : result <> JNull ->
                 announce (Some (url, f)) (Print success_message)
                 = Some (Some (url, f))).
  { intros H. cbn [announce]. rewrite (Hok H). reflexivity. }
  destruct result;
    [walk|
     eapply walks_bind with (Q := reaching (Some (url, f))); [walk|intros _ ? ->];
     eapply walks_bind with (Q := reaching (Some (url, f))); [walk|intros _ ? ->];
     eapply walks_print; [apply Hsay; discriminate|exact I]..].
Qed.

Lemma submit_announce (filepath : str) (stdin : list str) :
  exists st, follow announce None (trace (submit filepath stdin)) = Some st.
Proof.
  assert (H : walks announce (submit filepath) None (fun _ _ => True) anywhere).
  { unfold _submit. apply walks_try_except; [apply body_announce|].
    intros e s _. eapply walks_bind with (Q := reaching s); [walk|intros _ ? ->].
    now apply walks_sys_exit. }
  destruct (H stdin) as (st & Hf & _). eauto.
Qed.

(** X6: a run prints the message of success only after a POST that the
    server answered with status 200 and a JSON body other than [null]. *)
Theorem success_only_when_accepted (filepath : str) (stdin : list str)
    (before after : list event) :
  trace (submit filepath stdin) = before ++ Print success_message :: after ->
  exists url f t resp v,
    In (HttpPost url f t) before
    /\ http_post w url f = inr resp
    /\ status_code resp = 200%Z
    /\ json_result resp = inr v
    /\ v <> JNull.
Proof.
  intros Ht. destruct (submit_announce filepath stdin) as [st Hf].
  rewrite Ht, follow_app in Hf.
  destruct (follow announce None before) as [posted|] eqn:Hb; [|discriminate].
  cbn [follow announce] in Hf. rewrite StrFacts.eqb_refl in Hf.
  destruct posted as [[url f]|]; [|discriminate].
  destruct (accepted (http_post w url f)) eqn:Hok; [|discriminate].
  destruct (follow_posted _ _ Hb) as [[t Hin]|H]; [|discriminate].
  destruct (accepted_answer _ Hok) as (resp & v & H1 & H2 & H3 & H4).
  exists url, f, t, resp, v. auto.
Qed.

End Announcement.


(* ================================================================== *)
(** * After the runner is selected *)

Section FromGpus.

Variable str_lower : str -> str.
Variable py_str : json -> str.
Variable w : World.

Local Abbreviation body := (_submit_body str_lower py_str w).
Local Abbreviation submit := (_submit str_lower py_str w).
Local Abbreviation chooses_runner := (chooses_runner w).
Local Abbreviation selects := (selects str_lower py_str w).
Local Abbreviation fmt := (format py_str).

(** Lines 105 to 145 of [_submit]: what the [try] block does with the
    selected leaderboard and runner. *)
Definition from_gpus (filepath : str) (selected_leaderboard : json)
    (selected_runner : str) : M unit :=
  gpus <-
    with_progress (u "Fetching available GPUs...")
      (fetch_available_gpus w (fmt selected_leaderboard) selected_runner) ;;
  console_print (Str.nl ++ u "[bold blue]Available GPUs:[/bold blue]") ;;
  gpu_items <- lift (py_iter gpus) ;;
  print_menu 1 (map fmt gpu_items) ;;
  n_gpus <- lift (py_len gpus) ;;
  gpu_idx <- IntPrompt.ask (Str.nl ++ u "Select GPU number") (choices_upto n_gpus) ;;
  selected_gpu <- lift (py_getitem_int gpus (gpu_idx - 1)) ;;
  selected_leaderboard <- lift (py_lower str_lower selected_leaderboard) ;;
  let selected_runner := str_lower selected_runner in
  selected_gpu <- lift (py_lower str_lower selected_gpu) ;;
  finish w filepath selected_leaderboard selected_runner selected_gpu.

(** The events of lines 71 to 103. *)
Definition head_trace (s : selection) (stdin : list str) : list event :=
  [ProgressTask (u "Fetching available leaderboards...");
   ClientOpen; HttpGet leaderboards_url; ClientClose;
   Print (Str.nl ++ u "[bold blue]Available Leaderboards:[/bold blue]")]
  ++ menu_events 1 (map fmt (leaderboard_names s))
  ++ trace (ask_leaderboard s stdin)
  ++ [Print (Str.nl ++ u "[bold blue]Available Runners:[/bold blue]")]
  ++ menu_events 1 runners
  ++ trace (ask_runner s stdin).

Lemma runner_trace_head (s : selection) (stdin : list str) :
  runner_trace py_str s stdin
  = head_trace s stdin
    ++ [ProgressTask (u "Fetching available GPUs..."); ClientOpen;
        HttpGet (gpus_url_of py_str s)].
Proof.
  unfold runner_trace, head_trace, gpus_url_of.
  rewrite <- !app_assoc. reflexivity.
Qed.

Lemma chooses_run (filepath : str) (stdin : list str) (s : selection) :
  chooses_runner filepath stdin s ->
  body filepath stdin
  = after (head_trace s stdin)
      (from_gpus filepath (selected_leaderboard s) (selected_runner s)
         (stdin_left (ask_runner s stdin))).
Proof.
  intros [].
  unfold _submit_body.
  rewrite Hexists. cbn [negb]. rewrite bind_ret.
  unfold with_progress.
  repeat step.
  rewrite bind_fetch_leaderboards, bind_run. unfold fetch_run.
  rewrite Hget1, Hstatus1, Hjson1. cbn [Z.eqb Pos.eqb outcome_of stdin_left trace].
  rewrite Hiter1. repeat step. rewrite Hnames. repeat step.
  rewrite bind_run.
  change (IntPrompt.ask _ _ stdin) with (ask_leaderboard s stdin).
  rewrite Hask1, Hsel1. repeat step.
  rewrite bind_run.
  change (IntPrompt.ask _ _ (stdin_left (ask_leaderboard s stdin)))
    with (ask_runner s stdin).
  rewrite Hask2, Hsel2.
  unfold from_gpus, with_progress, head_trace. repeat step.
  rewrite <- !app_assoc. reflexivity.
Qed.

Definition gpus_failed_message : str := u "[red]Failed to fetch GPUs[/red]".

(** X3: in a run that has selected a leaderboard and a runner, if the
    request for the GPUs is answered with a status other than 200, the run
    prints the failure message, closes the client and leaves with status 1:
    it shows no GPU menu, asks nothing more, reads no further input, does
    not open the file and posts nothing. *)
Theorem gpus_failure_stops (filepath : str) (stdin : list str) (s : selection)
    (resp : response) :
  chooses_runner filepath stdin s ->
  http_get w (gpus_url_of py_str s) = inr resp ->
  status_code resp <> 200%Z ->
  let r := submit filepath stdin in
  outcome_of r = SysExit 1
  /\ exit_status (outcome_of r) = 1%Z
  /\ trace r = runner_trace py_str s stdin
               ++ [Print gpus_failed_message; ClientClose]
  /\ stdin_left r = stdin_left (ask_runner s stdin)
  /\ Forall (fun e => submission_event e = false) (trace r).
Proof.
  intros Hs Hget Hstatus r. subst r.
  rewrite submit_of_body, (chooses_run Hs). cbv zeta.
  unfold from_gpus, with_progress. repeat step.
  rewrite bind_fetch_gpus, bind_run. unfold fetch_run.
  unfold gpus_url_of in Hget. rewrite Hget.
  apply Z.eqb_neq in Hstatus. rewrite Hstatus.
  cbn [after outcome_of stdin_left trace exit_status].
  assert (Ht : (head_trace s stdin
                ++ [ProgressTask (u "Fetching available GPUs...")])
               ++ [ClientOpen;
                   HttpGet (gpus_url (fmt (selected_leaderboard s)) (selected_runner s));
                   Print (u "[red]Failed to fetch GPUs[/red]"); ClientClose]
               = runner_trace py_str s stdin
                 ++ [Print gpus_failed_message; ClientClose]).
  { rewrite runner_trace_head. unfold gpus_url_of.
    rewrite <- !app_assoc. reflexivity. }
  rewrite Ht. repeat split.
  apply Forall_app. split; [apply runner_trace_early|repeat constructor].
Qed.

End FromGpus.


(* ================================================================== *)
(** * How a run ends *)


Section Outcomes.

Variable str_lower : str -> str.
Variable py_str : json -> str.
Variable w : World.

Local Abbreviation body := (_submit_body str_lower py_str w).
Local Abbreviation submit := (_submit str_lower py_str w).
Local Abbreviation selects := (selects str_lower py_str w).

(** The events before the answer to the POST hold no other POST. *)
Lemma before_answer (s : selection) (stdin : list str) (filepath content : str) :
  exists pre,
    selection_trace py_str s stdin ++ post_trace str_lower s filepath content
    = pre ++ [HttpPost (target str_lower s) (files_of filepath content) 600]
    /\ Forall (fun e => is_post e = false) pre.
Proof.
  exists (selection_trace py_str s stdin
          ++ [ProgressTask (u "Submitting solution..."); FileOpen filepath;
              ClientOpen]).
  split.
  - unfold post_trace. rewrite <- !app_assoc. reflexivity.
  - apply Forall_app. split; [|repeat constructor].
    eapply Forall_weaken; [|apply selection_trace_early].
    intros e He. destruct e; try reflexivity; discriminate.
Qed.


(** X5: a POST answered with status 200 and the JSON body [null] counts as
    a failure: [response.json()] is [None], so the run prints the failure
    message, once, prints no result, and returns with exit status 0. *)
Theorem null_result_reported_as_failure (filepath : str) (stdin : list str)
    (url : str) (f : files) (t : Z) (resp : response) :
  In (HttpPost url f t) (trace (submit filepath stdin)) ->
  http_post w url f = inr resp ->
  status_code resp = 200%Z ->
  json_result resp = inr JNull ->
  let r := submit filepath stdin in
  outcome_of r = Return tt
  /\ exit_status (outcome_of r) = 0%Z
  /\ exists pre,
       trace r = pre ++ [HttpPost url f t; ClientClose;
                         Print submit_failed_message]
       /\ Forall (fun e => is_post e = false) pre.
Proof.
  intros Hin Hpost Hstatus Hjson r. subst r.
  destruct (post_inversion _ _ _ _ _ _ _ _ Hin)
    as (s & content & Hs & Htext & -> & -> & ->).
  rewrite submit_of_body, (body_posts Hs Htext). cbv zeta.
  unfold answer_run. rewrite Hpost, Hstatus, Hjson.
  unfold after. cbn [Z.eqb Pos.eqb outcome_of trace stdin_left].
  repeat split.
  destruct (before_answer s stdin filepath content) as (pre & Hpre & Hno).
  exists pre. split; [|exact Hno].
  rewrite Hpre, <- app_assoc. reflexivity.
Qed.


Lemma stopped_status (filepath : str) (stdin : list str) :
  stopped (body filepath stdin) ->
  exit_status (outcome_of (submit filepath stdin)) = 1%Z.
Proof.
  intros Hst. rewrite submit_of_body. cbv zeta.
  destruct Hst as [[e He]|He]; rewrite He; cbn [outcome_of exit_status];
    rewrite ?He; reflexivity.
Qed.


(** A run posts or ends with status 1. *)
Lemma posts_or_fails (filepath : str) (stdin : list str) :
  (exists url f t, In (HttpPost url f t) (trace (submit filepath stdin)))
  \/ exit_status (outcome_of (submit filepath stdin)) = 1%Z.
Proof.
  destruct (body_cases str_lower py_str w filepath stdin)
    as [[Hst _]|[(s & t & _ & Hst & _)|[s Hs]]];
    [right; now apply stopped_status..|].
  destruct (text_of w filepath) as [e|content] eqn:Htext.
  - right. rewrite submit_of_body, (body_unread Hs Htext). reflexivity.
  - left. exists (target str_lower s), (files_of filepath content), 600%Z.
    apply in_body_in_submit. rewrite (body_posts Hs Htext).
    unfold after. cbn [trace]. apply in_or_app; left; apply in_or_app; right.
    right; right; right; left; reflexivity.
Qed.


End Outcomes.


(* ================================================================== *)
(** * Menus without a choice, and answers of the wrong shape *)

(** [EOFError], as [input] raises it. *)
Definition end_of_input : exn := Exn EOFError (u "EOF when reading a line").

(** With no choice on offer every line is rejected: the prompt is shown
    once for each line and once more at the end of the input. *)
Lemma ask_nothing_offered (prompt : str) (stdin : list str) :
  outcome_of (IntPrompt.ask prompt [] stdin) = Raise end_of_input
  /\ stdin_left (IntPrompt.ask prompt [] stdin) = []
  /\ length (filter is_prompt (trace (IntPrompt.ask prompt [] stdin)))
     = S (length stdin)
  /\ Forall (fun e => is_http e = false /\ submission_event e = false)
       (trace (IntPrompt.ask prompt [] stdin)).
Proof.
  induction stdin as [|line stdin (IH1 & IH2 & IH3 & IH4)]; cbn [IntPrompt.ask].
  - repeat split. repeat constructor.
  - assert (H : exists msg, IntPrompt.process_response [] line = inl msg).
    { unfold IntPrompt.process_response.
      destruct (Str.to_Z (Str.strip line)); cbn [Str.mem]; eauto. }
    destruct H as [msg ->]. cbn [outcome_of stdin_left trace filter is_prompt length].
    repeat split; try assumption; [now rewrite IH3|].
    repeat constructor. exact IH4.
Qed.

Lemma iter_empty_len (v : json) : py_iter v = inr [] -> py_len v = inr 0%Z.
Proof.
  destruct v as [| | |s|l|d]; cbn; try discriminate; intros H; injection H as H.
  - now destruct s.
  - now subst l.
  - now destruct d.
Qed.

Section Menus.

Variable str_lower : str -> str.
Variable py_str : json -> str.
Variable w : World.

Local Abbreviation body := (_submit_body str_lower py_str w).
Local Abbreviation submit := (_submit str_lower py_str w).
Local Abbreviation chooses_runner := (chooses_runner w).
Local Abbreviation selects := (selects str_lower py_str w).
Local Abbreviation fmt := (format py_str).

(** X8: when the server answers the request for the leaderboards with an
    empty list, the menu is empty and the prompt has no choice to accept:
    every line typed is rejected, and at the end of the input the run
    reports [EOFError] and leaves with status 1, the request for the
    leaderboards being its only request. *)
Theorem empty_leaderboards_accept_nothing (filepath : str) (stdin : list str)
    (resp : response) (v : json) :
  path_exists w filepath = true ->
  http_get w leaderboards_url = inr resp ->
  status_code resp = 200%Z ->
  json_result resp = inr v ->
  py_iter v = inr [] ->
  let r := submit filepath stdin in
  exit_status (outcome_of r) = 1%Z
  /\ stdin_left r = []
  /\ trace r
     = [ProgressTask (u "Fetching available leaderboards...");
        ClientOpen; HttpGet leaderboards_url; ClientClose;
        Print (Str.nl ++ u "[bold blue]Available Leaderboards:[/bold blue]")]
       ++ trace (IntPrompt.ask leaderboard_prompt [] stdin)
       ++ [Print (error_message end_of_input)]
  /\ length (filter is_prompt (trace r)) = S (length stdin)
  /\ filter is_http (trace r) = [HttpGet leaderboards_url].
Proof.
  intros Hexists Hget Hstatus Hjson Hiter r. subst r.
  destruct (ask_nothing_offered leaderboard_prompt stdin) as (Ho & Hi & Hn & Hq).
  assert (Hbody : body filepath stdin
                  = Run (Raise end_of_input) []
                      ([ProgressTask (u "Fetching available leaderboards...");
                        ClientOpen; HttpGet leaderboards_url; ClientClose;
                        Print (Str.nl ++ u "[bold blue]Available Leaderboards:[/bold blue]")]
                       ++ trace (IntPrompt.ask leaderboard_prompt [] stdin))).
  { unfold _submit_body. rewrite Hexists. cbn [negb]. rewrite bind_ret.
    unfold with_progress. repeat step.
    rewrite bind_fetch_leaderboards, bind_run. unfold fetch_run.
    rewrite Hget, Hstatus, Hjson. cbn [Z.eqb Pos.eqb outcome_of stdin_left trace].
    rewrite Hiter. repeat step. cbn [map_result]. repeat step.
    cbn [map menu_events length Z.of_nat]. rewrite bind_run.
    change (choices_upto 0) with (@nil str). fold leaderboard_prompt.
    rewrite Ho, Hi. reflexivity. }
  rewrite submit_of_body, Hbody. cbv zeta. cbn [outcome_of stdin_left trace exit_status].
  split; [reflexivity|]. split; [reflexivity|]. split; [reflexivity|]. split.
  - rewrite !filter_app, !length_app, Hn. cbn. lia.
  - rewrite !filter_app.
    assert (Hnone : filter is_http (trace (IntPrompt.ask leaderboard_prompt [] stdin)) = []).
    { clear -Hq. induction Hq as [|e l [He _] _ IH]; [reflexivity|].
      cbn [filter]. now rewrite He. }
    rewrite Hnone. reflexivity.
Qed.

Definition gpus_header : str := Str.nl ++ u "[bold blue]Available GPUs:[/bold blue]".

(** X9: when the server answers the request for the GPUs with an empty
    list, no line typed is accepted as a GPU number: at the end of the
    input the run reports [EOFError] and leaves with status 1, and it has
    neither opened the file nor posted anything. *)
Theorem empty_gpus_accept_nothing (filepath : str) (stdin : list str)
    (s : selection) (resp : response) (v : json) :
  chooses_runner filepath stdin s ->
  http_get w (gpus_url_of py_str s) = inr resp ->
  status_code resp = 200%Z ->
  json_result resp = inr v ->
  py_iter v = inr [] ->
  let r := submit filepath stdin in
  let rest := stdin_left (ask_runner s stdin) in
  exit_status (outcome_of r) = 1%Z
  /\ stdin_left r = []
  /\ trace r
     = runner_trace py_str s stdin
       ++ [ClientClose; Print gpus_header]
       ++ trace (IntPrompt.ask gpu_prompt [] rest)
       ++ [Print (error_message end_of_input)]
  /\ Forall (fun e => submission_event e = false) (trace r).
Proof.
  intros Hs Hget Hstatus Hjson Hiter r rest. subst r rest.
  destruct (ask_nothing_offered gpu_prompt (stdin_left (ask_runner s stdin)))
    as (Ho & Hi & _ & Hq).
  assert (Hbody : body filepath stdin
                  = Run (Raise end_of_input) []
                      (runner_trace py_str s stdin
                       ++ [ClientClose; Print gpus_header]
                       ++ trace (IntPrompt.ask gpu_prompt []
                                   (stdin_left (ask_runner s stdin))))).
  { rewrite (chooses_run str_lower py_str Hs).
    unfold from_gpus, with_progress. repeat step.
    rewrite bind_fetch_gpus, bind_run. unfold fetch_run.
    unfold gpus_url_of in Hget. rewrite Hget, Hstatus, Hjson.
    cbn [Z.eqb Pos.eqb outcome_of stdin_left trace]. repeat step.
    rewrite Hiter. repeat step. rewrite (iter_empty_len _ Hiter). repeat step.
    cbn [map menu_events]. rewrite bind_run.
    change (choices_upto 0) with (@nil str). fold gpu_prompt.
    rewrite Ho, Hi. unfold after. cbn [outcome_of stdin_left trace].
    rewrite runner_trace_head. unfold gpus_url_of, gpus_header.
    rewrite <- !app_assoc. reflexivity. }
  rewrite submit_of_body, Hbody. cbv zeta.
  cbn [outcome_of stdin_left trace exit_status].
  split; [reflexivity|]. split; [reflexivity|]. split.
  - rewrite <- !app_assoc. reflexivity.
  - apply Forall_app; split; [|repeat constructor].
    apply Forall_app; split; [apply runner_trace_early|].
    apply Forall_app; split; [repeat constructor|].
    eapply Forall_weaken; [|exact Hq]. now intros e [_ He].
Qed.

(** X11: when the server answers the request for the GPUs with a JSON
    object, the menu lists the keys of the object, but no key can be
    selected: [gpus[gpu_idx - 1]] looks the number up as a key and raises
    [KeyError].  Whatever is typed, the run reports the error and leaves
    with status 1 without opening the file or posting. *)
Theorem gpus_object_cannot_be_selected (filepath : str) (stdin : list str)
    (s : selection) (resp : response) (d : list (str * json)) :
  chooses_runner filepath stdin s ->
  http_get w (gpus_url_of py_str s) = inr resp ->
  status_code resp = 200%Z ->
  json_result resp = inr (JDict d) ->
  let r := submit filepath stdin in
  let asked := IntPrompt.ask gpu_prompt (choices_upto (Z.of_nat (length d)))
                 (stdin_left (ask_runner s stdin)) in
  exit_status (outcome_of r) = 1%Z
  /\ (exists e,
        trace r
        = runner_trace py_str s stdin
          ++ [ClientClose; Print gpus_header]
          ++ menu_events 1 (map fst d)
          ++ trace asked
          ++ [Print (error_message e)]
        /\ (forall k, outcome_of asked = Return k ->
                      e = Exn KeyError (Str.of_Z (k - 1))))
  /\ Forall (fun e => submission_event e = false) (trace r).
Proof.
  intros Hs Hget Hstatus Hjson r asked. subst r.
  assert (Hbody : exists e,
             body filepath stdin
             = Run (Raise e) (stdin_left asked)
                 (runner_trace py_str s stdin
                  ++ [ClientClose; Print gpus_header]
                  ++ menu_events 1 (map fst d)
                  ++ trace asked)
             /\ (forall k, outcome_of asked = Return k ->
                           e = Exn KeyError (Str.of_Z (k - 1)))).
  { rewrite (chooses_run str_lower py_str Hs).
    unfold from_gpus, with_progress. repeat step.
    rewrite bind_fetch_gpus, bind_run. unfold fetch_run.
    unfold gpus_url_of in Hget. rewrite Hget, Hstatus, Hjson.
    cbn [Z.eqb Pos.eqb outcome_of stdin_left trace]. repeat step.
    cbn [py_iter py_len]. repeat step. rewrite map_map. cbn [format fst].
    repeat step. rewrite bind_run. fold gpu_prompt. fold asked.
    destruct (outcome_of asked) as [k|e|c] eqn:Hk.
    - cbn [py_getitem_int]. rewrite bind_lift_inl.
      exists (Exn KeyError (Str.of_Z (k - 1))).
      split; [|intros k' Hk'; now injection Hk' as <-].
      unfold after. cbn [outcome_of stdin_left trace].
      rewrite runner_trace_head, List.app_nil_r. unfold gpus_url_of, gpus_header.
      rewrite <- !app_assoc. reflexivity.
    - exists e. split; [|discriminate].
      unfold after. cbn [outcome_of stdin_left trace].
      rewrite runner_trace_head. unfold gpus_url_of, gpus_header.
      rewrite <- !app_assoc. reflexivity.
    - exfalso. destruct (ask_outcome gpu_prompt
                           (choices_upto (Z.of_nat (length d)))
                           (stdin_left (ask_runner s stdin)))
        as [[n Hn]|[e He]]; fold asked in Hn || fold asked in He; congruence. }
  destruct Hbody as (e & Hbody & Hkey).
  rewrite submit_of_body, Hbody. cbv zeta.
  cbn [outcome_of stdin_left trace exit_status].
  split; [reflexivity|]. split.
  - exists e. split; [|exact Hkey]. rewrite <- !app_assoc. reflexivity.
  - apply Forall_app; split; [|repeat constructor].
    apply Forall_app; split; [apply runner_trace_early|].
    apply Forall_app; split; [repeat constructor|].
    apply Forall_app; split; [apply Forall_menu|apply Forall_ask]; reflexivity.
Qed.

(** The comprehension of line 85 succeeds on objects with a ["name"]
    only. *)
Definition named (x name : json) : Prop :=
  exists d, x = JDict d /\ assoc (u "name") d = Some name.

Lemma map_result_names (items : list json) :
  forall names, map_result py_getitem_name items = inr names ->
  Forall2 named items names.
Proof.
  induction items as [|x items IH]; intros names H; cbn [map_result] in H.
  - injection H as <-. constructor.
  - destruct (py_getitem_name x) as [e|name] eqn:Hx; [discriminate|].
    destruct (map_result py_getitem_name items) as [e|names']; [discriminate|].
    injection H as <-. constructor; [|now apply IH].
    destruct x; try discriminate. cbn [py_getitem_name] in Hx.
    destruct (assoc (u "name") d) eqn:Hd; [|discriminate].
    injection Hx as <-. now exists d.
Qed.

(** X16: the user is prompted only if the file exists and the request for
    the leaderboards was answered with status 200 and a JSON body that can
    be iterated and whose items are all objects with a ["name"]: the names
    are taken from every item before the first menu. *)
Theorem prompt_requires_named_leaderboards (filepath : str) (stdin : list str)
    (prompt : str) (choices : list str) :
  In (Prompt prompt choices) (trace (submit filepath stdin)) ->
  path_exists w filepath = true
  /\ exists resp v items names,
       http_get w leaderboards_url = inr resp
       /\ status_code resp = 200%Z
       /\ json_result resp = inr v
       /\ py_iter v = inr items
       /\ Forall2 named items names.
Proof.
  intros Hin.
  assert (Hb : In (Prompt prompt choices) (trace (body filepath stdin))).
  { destruct (submit_trace str_lower py_str w filepath stdin) as [H|[e [_ H]]];
      rewrite H in Hin; [assumption|].
    apply in_app_or in Hin. destruct Hin as [Hin|[H'|[]]]; [assumption|discriminate]. }
  clear Hin. revert Hb. unfold _submit_body.
  destruct (path_exists w filepath) eqn:Hexists; cbn [negb].
  2: { rewrite bind_assoc_run, bind_print, bind_sys_exit. cbn.
       intros [H|[]]. discriminate. }
  rewrite bind_ret. unfold with_progress. repeat step.
  rewrite bind_fetch_leaderboards, bind_run. unfold fetch_run.
  assert (Hno : forall t : list event,
             Forall (fun e => is_prompt e = false) t ->
             In (Prompt prompt choices) t -> False).
  { intros t Ht Hin. rewrite Forall_forall in Ht.
    specialize (Ht _ Hin). discriminate. }
  destruct (http_get w leaderboards_url) as [e|resp] eqn:Hget.
  { intros H. exfalso. revert H. apply Hno. repeat constructor. }
  destruct (status_code resp =? 200)%Z eqn:Hstatus.
  2: { intros H. exfalso. revert H. apply Hno. repeat constructor. }
  apply Z.eqb_eq in Hstatus.
  destruct (json_result resp) as [e|v] eqn:Hjson.
  { intros H. exfalso. revert H. apply Hno. repeat constructor. }
  cbn [outcome_of stdin_left trace].
  destruct (py_iter v) as [e|items] eqn:Hiter.
  { repeat step. rewrite bind_lift_inl. unfold after. cbn [trace app].
    intros H. exfalso. revert H. apply Hno. repeat constructor. }
  repeat step.
  destruct (map_result py_getitem_name items) as [e|names] eqn:Hnames.
  { rewrite bind_lift_inl. unfold after. cbn [trace app].
    intros H. exfalso. revert H. apply Hno. repeat constructor. }
  intros _. split; [reflexivity|].
  exists resp, v, items, names.
  repeat (split; [first [assumption|reflexivity]|]).
  now apply map_result_names.
Qed.

(** The first two selections of a run are determined by the file, the
    server and the input. *)
Lemma chooses_runner_unique (filepath : str) (stdin : list str)
    (s s' : selection) :
  chooses_runner filepath stdin s -> chooses_runner filepath stdin s' ->
  selected_leaderboard s = selected_leaderboard s'
  /\ selected_runner s = selected_runner s'.
Proof.
  intros [r1 l1 i1 _ G1 _ J1 I1 N1 A1 S1 A2 S2]
         [r2 l2 i2 _ G2 _ J2 I2 N2 B1 T1 B2 T2].
  assert (Hn : leaderboard_names s = leaderboard_names s') by congruence.
  unfold ask_runner, ask_leaderboard in *. rewrite Hn in *.
  assert (Hi : leaderboard_idx s = leaderboard_idx s') by congruence.
  assert (Hr : runner_idx s = runner_idx s') by congruence.
  rewrite Hi in *. rewrite Hr in *. split; congruence.
Qed.

(** The block of lines 105 to 145 begins with the request for the GPUs. *)
Lemma from_gpus_requests (filepath : str) (leaderboard : json) (runner : str)
    (i : list str) :
  exists t,
    trace (from_gpus str_lower py_str w filepath leaderboard runner i)
    = ProgressTask (u "Fetching available GPUs...") :: ClientOpen
      :: HttpGet (gpus_url (fmt leaderboard) runner) :: t.
Proof.
  unfold from_gpus, with_progress. repeat step.
  rewrite bind_fetch_gpus, bind_run. unfold fetch_run.
  destruct (http_get w _) as [e|resp]; [eexists; reflexivity|].
  destruct (status_code resp =? 200)%Z; [|eexists; reflexivity].
  destruct (json_result resp) as [e|v]; eexists; reflexivity.
Qed.

(** X12: a leaderboard whose ["name"] is not a string is listed and can be
    selected, and the GPUs are requested under [str(name)]; but the run
    cannot get past [selected_leaderboard.lower()]: it leaves with status
    1 and neither opens the file nor posts. *)
Theorem unnamed_selection_never_posts (filepath : str) (stdin : list str)
    (s : selection) :
  chooses_runner filepath stdin s ->
  (forall name, selected_leaderboard s <> JStr name) ->
  let r := submit filepath stdin in
  In (HttpGet (gpus_url (py_str (selected_leaderboard s)) (selected_runner s)))
    (trace r)
  /\ exit_status (outcome_of r) = 1%Z
  /\ Forall (fun e => submission_event e = false) (trace r).
Proof.
  intros Hs Hname r. subst r.
  assert (Hnone : forall s', ~ selects filepath stdin s').
  { intros s' Hs'.
    destruct (target_lowered Hs') as (lb & _ & Hlb & _).
    assert (Hr' : chooses_runner filepath stdin s') by now destruct Hs'.
    destruct (chooses_runner_unique Hs Hr') as [H _].
    apply (Hname lb). congruence. }
  split; [|split].
  - apply in_body_in_submit. rewrite (chooses_run str_lower py_str Hs).
    destruct (from_gpus_requests filepath (selected_leaderboard s)
                (selected_runner s) (stdin_left (ask_runner s stdin)))
      as [t Ht].
    unfold after. cbn [trace]. rewrite Ht. apply in_or_app. right.
    right; right; left.
    destruct (selected_leaderboard s); try reflexivity.
    now destruct (Hname s0).
  - destruct (posts_or_fails str_lower py_str w filepath stdin)
      as [(url & f & t & Hin)|H]; [|exact H].
    destruct (post_inversion _ _ _ _ _ _ _ _ Hin) as (s' & _ & Hs' & _).
    now destruct (Hnone s').
  - apply Forall_forall. intros e Hin.
    destruct (submission_event e) eqn:He; [|reflexivity].
    destruct (@reaches_submission str_lower py_str w filepath stdin e He Hin)
      as [s' Hs'].
    now destruct (Hnone s').
Qed.

(** The line of a menu for the item at place [k]. *)
Lemma menu_events_nth (items : list str) (x : str) :
  forall idx k, nth_error items k = Some x ->
  nth_error (menu_events idx items) k
  = Some (Print (Str.of_Z (idx + Z.of_nat k) ++ u ". " ++ x)).
Proof.
  induction items as [|y items IH]; intros idx [|k] H; try discriminate.
  - cbn in H. injection H as ->. cbn [menu_events nth_error].
    now rewrite Z.add_0_r.
  - cbn [menu_events nth_error] in *. rewrite (IH _ _ H).
    now replace (idx + 1 + Z.of_nat k)%Z with (idx + Z.of_nat (S k))%Z by lia.
Qed.

(** X10: in a run that makes its three selections, each selected item was
    displayed in its menu under the number that the user typed: the menus
    number their items from 1, in the order of the lists, and the number
    [i] selects the item at place [i - 1]. *)
Theorem selection_was_displayed (filepath : str) (stdin : list str)
    (s : selection) :
  selects filepath stdin s ->
  let line (i : Z) (x : str) := Print (Str.of_Z i ++ u ". " ++ x) in
  nth_error (menu_events 1 (map fmt (leaderboard_names s)))
    (Z.to_nat (leaderboard_idx s - 1))
  = Some (line (leaderboard_idx s) (fmt (selected_leaderboard s)))
  /\ nth_error (menu_events 1 runners) (Z.to_nat (runner_idx s - 1))
     = Some (line (runner_idx s) (selected_runner s))
  /\ nth_error (menu_events 1 (map fmt (items_of (gpus s))))
       (Z.to_nat (gpu_idx s - 1))
     = Some (line (gpu_idx s) (fmt (selected_gpu s)))
  /\ exists tail,
       trace (submit filepath stdin) = selection_trace py_str s stdin ++ tail.
Proof.
  intros Hs line.
  assert (Hr : chooses_runner filepath stdin s) by now destruct Hs.
  destruct (runner_in_range Hr) as (Hi1 & Hn1 & Hi2 & Hn2).
  destruct (gpu_in_range Hs) as (Hi3 & Hn3).
  assert (Hline : forall (items : list str) i x,
             (1 <= i)%Z -> nth_error items (Z.to_nat (i - 1)) = Some x ->
             nth_error (menu_events 1 items) (Z.to_nat (i - 1)) = Some (line i x)).
  { intros items i x Hi Hx. rewrite (@menu_events_nth items x 1 _ Hx).
    now replace (1 + Z.of_nat (Z.to_nat (i - 1)))%Z with i by lia. }
  split; [|split; [|split]].
  - apply Hline; [lia|]. now apply map_nth_error.
  - apply Hline; [lia|assumption].
  - apply Hline; [lia|]. now apply map_nth_error.
  - destruct (submit_trace str_lower py_str w filepath stdin) as [H|[e [_ H]]];
      rewrite H, (submit_selects Hs); unfold after; cbn [trace];
      rewrite <- ?app_assoc; eexists; reflexivity.
Qed.

End Menus.


(* ================================================================== *)
(** * The file part of the POST *)

Module PartFacts.

(** [basename] cuts the path after its last slash. *)
Lemma basename_split (p : str) :
  exists dir,
    p = dir ++ Text.basename p
    /\ ~ In 47%N (Text.basename p)
    /\ (dir = [] \/ exists d, dir = d ++ [47%N]).
Proof.
  assert (Hno : forall r, existsb (N.eqb 47) r = false -> ~ In 47%N r).
  { intros r Hr Hin. assert (H : existsb (N.eqb 47) r = true)
      by (apply existsb_exists; exists 47%N; split; [assumption|reflexivity]).
    congruence. }
  induction p as [|c r (dir & Hr & Hbase & Hdir)]; cbn [Text.basename].
  - exists []. repeat split; auto.
  - destruct (existsb (N.eqb 47) r) eqn:Hslash.
    + exists (c :: dir). split; [cbn; congruence|]. split; [assumption|].
      right. destruct Hdir as [->|[d ->]].
      * exfalso. cbn [app] in Hr. rewrite <- Hr in Hbase.
        apply existsb_exists in Hslash. destruct Hslash as (x & Hx & Hx47).
        apply N.eqb_eq in Hx47. subst x. contradiction.
      * exists (c :: d). reflexivity.
    + apply Hno in Hslash. destruct (N.eqb_spec c 47) as [->|Hc].
      * exists [47%N]. repeat split; [assumption|]. right. now exists [].
      * exists []. repeat split; [|now left]. intros [H|H]; congruence.
Qed.

(** Text mode leaves no carriage return. *)
Lemma universal_newlines_no_cr (s : str) :
  ~ In 13%N (Text.universal_newlines s).
Proof.
  assert (H : forall n s, (length s <= n)%nat ->
                          ~ In 13%N (Text.universal_newlines s)).
  { clear s. induction n as [|n IH]; intros [|c r] Hlen; cbn [length] in Hlen;
      try lia; cbn [Text.universal_newlines]; [tauto..|].
    destruct (N.eqb_spec c 13) as [->|Hc].
    - intros [H|H]; [discriminate|]. revert H.
      destruct r as [|c' r']; [tauto|].
      destruct (c' =? 10)%N; apply IH; cbn [length] in *; lia.
    - intros [H|H]; [congruence|]. revert H. apply IH. lia. }
  now apply (H (length s)).
Qed.

End PartFacts.

Section FilePart.

Variable str_lower : str -> str.
Variable py_str : json -> str.
Variable w : World.

Local Abbreviation submit := (_submit str_lower py_str w).

(** X13: the file is posted under the last component of the path given on
    the command line: the name holds no slash, and the path is the name
    alone or a directory part that ends with a slash followed by the
    name. *)
Theorem posted_name_is_last_component (filepath : str) (stdin : list str)
    (url : str) (f : files) (t : Z) :
  In (HttpPost url f t) (trace (submit filepath stdin)) ->
  exists dir name content,
    f = [(u "file", (name, content))]
    /\ filepath = dir ++ name
    /\ ~ In 47%N name
    /\ (dir = [] \/ exists d, dir = d ++ [47%N]).
Proof.
  intros Hin.
  destruct (post_inversion _ _ _ _ _ _ _ _ Hin)
    as (s & content & _ & _ & _ & -> & _).
  destruct (PartFacts.basename_split filepath) as (dir & Hp & Hname & Hdir).
  exists dir, (Text.basename filepath), content. auto.
Qed.

(** X14: the text that is posted holds no carriage return: it is what
    reading the file in text mode gives, where every line ending is a
    single newline. *)
Theorem posted_text_has_no_carriage_return (filepath : str) (stdin : list str)
    (url : str) (f : files) (t : Z) :
  In (HttpPost url f t) (trace (submit filepath stdin)) ->
  exists name content bytes,
    f = [(u "file", (name, content))]
    /\ file_bytes w filepath = inr bytes
    /\ Text.read_text bytes = inr content
    /\ ~ In 13%N content.
Proof.
  intros Hin.
  destruct (post_inversion _ _ _ _ _ _ _ _ Hin)
    as (s & content & _ & Htext & _ & -> & _).
  unfold text_of in Htext.
  destruct (file_bytes w filepath) as [e|bytes]; [discriminate|].
  exists (Text.basename filepath), content, bytes.
  repeat split; try assumption.
  unfold Text.read_text in Htext.
  destruct (Text.utf8_decode _) as [decoded|]; [|discriminate].
  injection Htext as <-. apply PartFacts.universal_newlines_no_cr.
Qed.

End FilePart.


(* ================================================================== *)
(** * The printed result is plain ASCII *)

Module DumpsFacts.

Import Json.













End DumpsFacts.


(* ================================================================== *)
(** * Other servers, and the runs against them *)

Module OtherRuns.

Import Example.

Local Abbreviation run_on := (_submit lower_ascii str_of_atom).

(** The leaderboards are served, and every other GET is answered by
    [answer]. *)
Definition serving_gpus (answer : result response) : World :=
  with_get (fun url => if Str.eqb url leaderboards_url then ok leaderboards_body
                       else answer) server.

Definition gpus_unavailable : World := serving_gpus (inr (Response 503 (inr JNull))).

Definition no_gpus : World := serving_gpus (ok (JList [])).

Definition gpus_by_name : World :=
  serving_gpus (ok (JDict [(u "A100", JInt 8); (u "H100", JInt 4)])).

Definition no_leaderboards : World := with_get (fun _ => ok (JList [])) server.

(** The only leaderboard is named by a number. *)
Definition numbered : World :=
  with_get (fun _ => ok (JList [JDict [(u "name", JInt 7)]])) server.

Definition chosen_number : selection :=
  Selection [JInt 7] 1 (JInt 7) 1 (u "modal") JNull 0 JNull [] [].

(** The submission is answered with the body [null]. *)
Definition answering_null : World := with_post (fun _ _ => ok JNull) server.

Definition posted_part : files :=
  [(u "file", (u "solution.py", u "x = 1" ++ Str.nl))].

Ltac chooses_chosen := econstructor; reflexivity.

Lemma gpus_unavailable_chooses :
  chooses_runner gpus_unavailable path typed chosen.
Proof. chooses_chosen. Qed.

Lemma no_gpus_chooses : chooses_runner no_gpus path typed chosen.
Proof. chooses_chosen. Qed.

Lemma gpus_by_name_chooses : chooses_runner gpus_by_name path typed chosen.
Proof. chooses_chosen. Qed.

Lemma numbered_chooses :
  chooses_runner numbered path [u "1"; u "1"; u "1"] chosen_number.
Proof. chooses_chosen. Qed.

Lemma answering_null_selects :
  selects lower_ascii str_of_atom answering_null path typed chosen.
Proof. selects_chosen. Qed.

(** The protocol refuses a client left open, a request outside a client,
    a second POST, and a file opened before the GPUs are fetched. *)
Lemma protocol_refuses :
  in_protocol [ClientOpen; HttpGet leaderboards_url] = false
  /\ in_protocol [HttpGet leaderboards_url] = false
  /\ in_protocol (trace (run_on server path typed)
                  ++ [ClientOpen; HttpPost target_url posted_part 600; ClientClose])
     = false
  /\ in_protocol [ClientOpen; HttpGet leaderboards_url; ClientClose; FileOpen path]
     = false.
Proof. repeat split; vm_compute; reflexivity. Qed.

(** The GPUs answer 503: the third line typed is left unread. *)
Lemma gpus_failure_stops_witness :
  exit_status (outcome_of (run_on gpus_unavailable path typed)) = 1%Z
  /\ stdin_left (run_on gpus_unavailable path typed) = [u "2"].
Proof.
  destruct (@gpus_failure_stops lower_ascii str_of_atom gpus_unavailable
              path typed chosen (Response 503 (inr JNull))
              gpus_unavailable_chooses eq_refl)
    as (_ & H1 & _ & H2 & _); [discriminate|].
  exact (conj H1 H2).
Defined.


Lemma null_result_reported_as_failure_witness :
  exit_status (outcome_of (run_on answering_null path typed)) = 0%Z
  /\ exists pre,
       trace (run_on answering_null path typed)
       = pre ++ [HttpPost target_url posted_part 600; ClientClose;
                 Print submit_failed_message].
Proof.
  destruct (@null_result_reported_as_failure lower_ascii str_of_atom
              answering_null path typed target_url posted_part 600
              (Response 200 (inr JNull)))
    as (_ & H1 & pre & H2 & _).
  - in_trace.
  - reflexivity.
  - reflexivity.
  - reflexivity.
  - split; [exact H1|]. exists pre. exact H2.
Defined.

(** The events of the scenario before its last one, the message of
    success. *)
Definition scenario_events : list event :=
  removelast (trace (run_on server path typed)).

Lemma success_only_when_accepted_witness :
  exists url f t resp v,
    In (HttpPost url f t) scenario_events
    /\ http_post server url f = inr resp
    /\ status_code resp = 200%Z
    /\ json_result resp = inr v
    /\ v <> JNull.
Proof.
  apply (@success_only_when_accepted lower_ascii str_of_atom server
           path typed scenario_events []).
  vm_compute. reflexivity.
Defined.

(** Nothing that is typed selects a leaderboard when there is none. *)
Lemma empty_leaderboards_accept_nothing_witness :
  exit_status (outcome_of (run_on no_leaderboards path typed)) = 1%Z
  /\ stdin_left (run_on no_leaderboards path typed) = []
  /\ length (filter is_prompt (trace (run_on no_leaderboards path typed))) = 4%nat.
Proof.
  destruct (@empty_leaderboards_accept_nothing lower_ascii str_of_atom
              no_leaderboards path typed (Response 200 (inr (JList [])))
              (JList []) eq_refl eq_refl eq_refl eq_refl eq_refl)
    as (H1 & H2 & _ & H3 & _).
  exact (conj H1 (conj H2 H3)).
Defined.

Lemma empty_gpus_accept_nothing_witness :
  exit_status (outcome_of (run_on no_gpus path typed)) = 1%Z
  /\ stdin_left (run_on no_gpus path typed) = [].
Proof.
  destruct (@empty_gpus_accept_nothing lower_ascii str_of_atom no_gpus
              path typed chosen (Response 200 (inr (JList []))) (JList [])
              no_gpus_chooses eq_refl eq_refl eq_refl eq_refl)
    as (H1 & H2 & _).
  exact (conj H1 H2).
Defined.

(** In the scenario the user typed 2, 1 and 2. *)
Lemma selection_was_displayed_witness :
  nth_error (menu_events 1 [u "MatMul"; u "Conv2D"]) 1
  = Some (Print (u "2. Conv2D"))
  /\ nth_error (menu_events 1 runners) 0 = Some (Print (u "1. modal"))
  /\ nth_error (menu_events 1 [u "A100"; u "H100"]) 1
     = Some (Print (u "2. H100")).
Proof.
  destruct (@selection_was_displayed lower_ascii str_of_atom server
              path typed chosen server_selects)
    as (H1 & H2 & H3 & _).
  exact (conj H1 (conj H2 H3)).
Defined.

(** The GPUs come as an object: the second key is typed, and the run
    ends with the error of the key 1. *)
Lemma gpus_object_cannot_be_selected_witness :
  exit_status (outcome_of (run_on gpus_by_name path typed)) = 1%Z
  /\ In (Print (u "2. H100")) (trace (run_on gpus_by_name path typed))
  /\ In (Print (error_message (Exn KeyError (u "1"))))
       (trace (run_on gpus_by_name path typed)).
Proof.
  destruct (@gpus_object_cannot_be_selected lower_ascii str_of_atom
              gpus_by_name path typed chosen
              (Response 200 (inr (JDict [(u "A100", JInt 8); (u "H100", JInt 4)])))
              [(u "A100", JInt 8); (u "H100", JInt 4)]
              gpus_by_name_chooses eq_refl eq_refl eq_refl)
    as (H1 & (e & Ht & He) & _).
  split; [exact H1|]. rewrite Ht. rewrite (He 2%Z eq_refl).
  split; in_trace.
Defined.

(** The scenario prompts for a leaderboard: its two leaderboards have
    names. *)
Lemma prompt_requires_named_leaderboards_witness :
  path_exists server path = true
  /\ exists resp v items names,
       http_get server leaderboards_url = inr resp
       /\ status_code resp = 200%Z
       /\ json_result resp = inr v
       /\ py_iter v = inr items
       /\ Forall2 named items names.
Proof.
  apply (@prompt_requires_named_leaderboards lower_ascii str_of_atom server
           path typed leaderboard_prompt [u "1"; u "2"]).
  in_trace.
Defined.

(** The leaderboard 7: its GPUs are requested, and nothing is posted. *)
Lemma unnamed_selection_never_posts_witness :
  In (HttpGet (u "http://localhost:8000/7/modal/gpus"))
    (trace (run_on numbered path [u "1"; u "1"; u "1"]))
  /\ exit_status (outcome_of (run_on numbered path [u "1"; u "1"; u "1"])) = 1%Z.
Proof.
  destruct (@unnamed_selection_never_posts lower_ascii str_of_atom numbered
              path [u "1"; u "1"; u "1"] chosen_number numbered_chooses)
    as (H1 & H2 & _).
  - intros name H. discriminate.
  - exact (conj H1 H2).
Defined.

(** [kernels/solution.py] is posted as [solution.py]. *)
Lemma posted_name_is_last_component_witness :
  exists dir name content,
    posted_part = [(u "file", (name, content))]
    /\ path = dir ++ name
    /\ ~ In 47%N name.
Proof.
  destruct (@posted_name_is_last_component lower_ascii str_of_atom server
              path typed target_url posted_part 600)
    as (dir & name & content & H1 & H2 & H3 & _).
  - in_trace.
  - exists dir, name, content. exact (conj H1 (conj H2 H3)).
Defined.

(** The file with a Windows line ending is posted without its carriage
    return. *)
Lemma posted_text_has_no_carriage_return_witness :
  exists name content bytes,
    posted_part = [(u "file", (name, content))]
    /\ file_bytes crlf path = inr bytes
    /\ In 13%N (map Byte.to_N bytes)
    /\ ~ In 13%N content.
Proof.
  destruct (@posted_text_has_no_carriage_return lower_ascii str_of_atom crlf
              path typed target_url posted_part 600)
    as (name & content & bytes & H1 & H2 & _ & H3).
  - in_trace.
  - exists name, content, bytes. repeat split; try assumption.
    vm_compute in H2. injection H2 as <-. vm_compute. tauto.
Defined.

End OtherRuns.
